(** * The note window component of knowte

    A shallow embedding of [src/app/components/note/note.component.ts]: the
    component that tracks unsaved changes of one note, saves title and content
    after a quiet period, and defers the closing of its window until the
    changes have been handed to the collection service.

    The component's collaborators (collection service, Quill editor, translate
    service) are interfaces here, as they are injected in the source; the
    window, the debounced subjects and the trace of calls the component makes
    are explicit state. *)

From Stdlib Require Import String Ascii List Bool Arith NArith Lia.
Import ListNotations.
Local Open Scope string_scope.
Local Open Scope list_scope.

(** ** JSON, as far as the component uses it

    The editor's contents travel as JSON text: [JSON.stringify] on the way to
    the store, [JSON.parse] on the way back.  Numbers keep their literal and
    strings keep their escapes undecoded; the grammar is that of RFC 8259. *)

#[warnings="-register-all"]
Inductive json : Type :=
| JNull
| JBool (b : bool)
| JNumber (literal : string)
| JString (raw : string)
| JArray (items : list json)
| JObject (members : list (string * json)).

Module JSON.

Local Open Scope string_scope.

(** The double quote. *)
Definition dquote : ascii := "034"%char.

Definition is_ws (c : ascii) : bool :=
  (c =? " ")%char || (c =? "009")%char || (c =? "010")%char || (c =? "013")%char.

Definition is_digit (c : ascii) : bool :=
  ((48 <=? nat_of_ascii c) && (nat_of_ascii c <=? 57))%nat.

Definition is_hex (c : ascii) : bool :=
  is_digit c
  || ((65 <=? nat_of_ascii c) && (nat_of_ascii c <=? 70))%nat
  || ((97 <=? nat_of_ascii c) && (nat_of_ascii c <=? 102))%nat.

Definition is_escape (c : ascii) : bool :=
  existsb (Ascii.eqb c) (dquote :: list_ascii_of_string "\/bfnrt").

Fixpoint skip_ws (s : string) : string :=
  match s with
  | String c r => if is_ws c then skip_ws r else s
  | EmptyString => EmptyString
  end.

(** [expect p s]: [s] without its prefix [p], when it has it. *)
Fixpoint expect (p s : string) : option string :=
  match p, s with
  | EmptyString, _ => Some s
  | String a p', String b s' => if (a =? b)%char then expect p' s' else None
  | String _ _, EmptyString => None
  end.

Definition hex4 (s : string) : bool :=
  match s with
  | String a (String b (String c (String d _))) =>
      is_hex a && is_hex b && is_hex c && is_hex d
  | _ => false
  end.

(** The characters of a string literal after its opening quote, up to the
    closing one. *)
Fixpoint chars (s : string) : option (string * string) :=
  match s with
  | EmptyString => None
  | String c r =>
      if (c =? dquote)%char then Some (EmptyString, r)
      else if (c =? "\")%char then
        match r with
        | String e r' =>
            if is_escape e || ((e =? "u")%char && hex4 r') then
              match chars r' with
              | Some (body, rest) => Some (String c (String e body), rest)
              | None => None
              end
            else None
        | EmptyString => None
        end
      else if (nat_of_ascii c <? 32)%nat then None
      else
        match chars r with
        | Some (body, rest) => Some (String c body, rest)
        | None => None
        end
  end.

Fixpoint digits (s : string) : string * string :=
  match s with
  | String c r =>
      if is_digit c then let (d, rest) := digits r in (String c d, rest)
      else (EmptyString, s)
  | EmptyString => (EmptyString, EmptyString)
  end.

Definition sign (s : string) : string * string :=
  match s with
  | String c r => if (c =? "-")%char then ("-", r) else ("", s)
  | EmptyString => ("", s)
  end.

Definition int_part (s : string) : option (string * string) :=
  match digits s with
  | (EmptyString, _) => None
  | (String c d, rest) =>
      if (c =? "0")%char
      then match d with EmptyString => Some ("0", rest) | _ => None end
      else Some (String c d, rest)
  end.

Definition frac_part (s : string) : option (string * string) :=
  match s with
  | String c r =>
      if (c =? ".")%char then
        match digits r with
        | (EmptyString, _) => None
        | (d, rest) => Some (String c d, rest)
        end
      else Some ("", s)
  | EmptyString => Some ("", s)
  end.

Definition exp_part (s : string) : option (string * string) :=
  match s with
  | String c r =>
      if (c =? "e")%char || (c =? "E")%char then
        let (sg, r') :=
          match r with
          | String g r' =>
              if (g =? "+")%char || (g =? "-")%char
              then (String g "", r') else ("", r)
          | EmptyString => ("", r)
          end in
        match digits r' with
        | (EmptyString, _) => None
        | (d, rest) => Some (String c (sg ++ d), rest)
        end
      else Some ("", s)
  | EmptyString => Some ("", s)
  end.

Definition number (s : string) : option (string * string) :=
  let (sg, s1) := sign s in
  match int_part s1 with
  | Some (i, s2) =>
      match frac_part s2 with
      | Some (f, s3) =>
          match exp_part s3 with
          | Some (e, s4) => Some (sg ++ i ++ f ++ e, s4)
          | None => None
          end
      | None => None
      end
  | None => None
  end.

(** Recursive descent; [fuel] bounds the depth of the calls. *)
Fixpoint value (fuel : nat) (s : string) : option (json * string) :=
  match fuel with
  | O => None
  | S fuel' =>
      match skip_ws s with
      | EmptyString => None
      | String c r =>
          if (c =? "{")%char then
            match skip_ws r with
            | String "}" r' => Some (JObject [], r')
            | _ =>
                match members fuel' r with
                | Some (ms, r') => Some (JObject ms, r')
                | None => None
                end
            end
          else if (c =? "[")%char then
            match skip_ws r with
            | String "]" r' => Some (JArray [], r')
            | _ =>
                match elements fuel' r with
                | Some (vs, r') => Some (JArray vs, r')
                | None => None
                end
            end
          else if (c =? dquote)%char then
            match chars r with
            | Some (body, r') => Some (JString body, r')
            | None => None
            end
          else if (c =? "t")%char then
            option_map (pair (JBool true)) (expect "rue" r)
          else if (c =? "f")%char then
            option_map (pair (JBool false)) (expect "alse" r)
          else if (c =? "n")%char then
            option_map (pair JNull) (expect "ull" r)
          else
            match number (String c r) with
            | Some (lit, r') => Some (JNumber lit, r')
            | None => None
            end
      end
  end

with elements (fuel : nat) (s : string) : option (list json * string) :=
  match fuel with
  | O => None
  | S fuel' =>
      match value fuel' s with
      | Some (v, r) =>
          match skip_ws r with
          | String "," r' =>
              match elements fuel' r' with
              | Some (vs, r'') => Some (v :: vs, r'')
              | None => None
              end
          | String "]" r' => Some ([v], r')
          | _ => None
          end
      | None => None
      end
  end

with members (fuel : nat) (s : string) : option (list (string * json) * string) :=
  match fuel with
  | O => None
  | S fuel' =>
      match skip_ws s with
      | String "034" r =>
          match chars r with
          | Some (key, r1) =>
              match skip_ws r1 with
              | String ":" r2 =>
                  match value fuel' r2 with
                  | Some (v, r3) =>
                      match skip_ws r3 with
                      | String "," r4 =>
                          match members fuel' r4 with
                          | Some (ms, r5) => Some ((key, v) :: ms, r5)
                          | None => None
                          end
                      | String "}" r4 => Some ([(key, v)], r4)
                      | _ => None
                      end
                  | None => None
                  end
              | _ => None
              end
          | None => None
          end
      | _ => None
      end
  end.

(** [JSON.parse]: [None] stands for the [SyntaxError] it throws. *)
Definition parse (s : string) : option json :=
  match value (2 * String.length s + 2) s with
  | Some (v, r) =>
      match skip_ws r with
      | EmptyString => Some v
      | String _ _ => None
      end
  | None => None
  end.

Definition quote (raw : string) : string :=
  String dquote (raw ++ String dquote "").

Fixpoint join (parts : list string) : string :=
  match parts with
  | [] => ""
  | [p] => p
  | p :: ps => p ++ "," ++ join ps
  end.

(** [JSON.stringify], which writes no white space. *)
Fixpoint stringify (v : json) : string :=
  match v with
  | JNull => "null"
  | JBool true => "true"
  | JBool false => "false"
  | JNumber lit => lit
  | JString raw => quote raw
  | JArray items => "[" ++ join (map stringify items) ++ "]"
  | JObject ms =>
      "{" ++ join (map (fun m => quote (fst m) ++ ":" ++ stringify (snd m)) ms) ++ "}"
  end.

End JSON.


(** ** Entities and results of the collection service *)

(** Modelled from the spec: the enum [Operation] of [core/enums] is not among
    the sources.  The component compares against three of its members,
    [Success], [Error] (the spec's Failure) and [Blank]; [Unlisted] stands for
    every other value the enum may hold. *)
Inductive Operation : Type :=
| Success
| Error
| Blank
| Unlisted (code : nat).

Module Note.
Record t : Type := { id : string; title : string }.
End Note.

Module RenameNoteResult.
Record t : Type := { operation : Operation; newNoteTitle : string }.
End RenameNoteResult.

Module GetNoteContentResult.
(** [noteContent] may be absent, hence the option. *)
Record t : Type := { operation : Operation; noteContent : option string }.
End GetNoteContentResult.

(** ** The injected collaborators *)

(** The collection service, over the state [S] it keeps.  The sources hold only
    its calls; the result of [updateNote], which the component drops, is an
    [Operation] as the spec has it for every mutation. *)
Class CollectionService (S : Type) : Type := {
  getNote : S -> string -> Note.t;
  setNoteIsOpen : S -> string -> bool -> S;
  renameNote : S -> string -> string -> string -> RenameNoteResult.t * S;
  updateNoteContent : S -> string -> string -> string -> Operation * S;
  updateNote : S -> string -> string -> string -> string -> Operation * S;
  getNoteContent : S -> string -> GetNoteContentResult.t
}.

(** The Quill editor, over its state [Q]. *)
Class Quill (Q : Type) : Type := {
  getText : Q -> string;
  getContents : Q -> json;
  setContents : Q -> json -> Q
}.

(** [translateService.get(key, params)], awaited. *)
Class TranslateService : Type := {
  translate : string -> list (string * string) -> string
}.

(** ** The component's state *)

Record NoteComponent : Type := {
  isTitleChanged : bool;
  isContentChanged : bool;
  noteId : string;
  originalNoteTitle : string;
  noteTitle : string
}.

(** The two periods of the component, in milliseconds. *)
Definition saveTimeoutMilliseconds : N := 5000.
Definition windowCloseTimeoutMilliseconds : N := 500.

(** What a debounced subject holds back: the value of its last [next], and
    the time at which its quiet period is over. *)
Record Held : Type := { due : N; value : string }.

(** The three subjects, each piped through [debounceTime].  A new [next]
    replaces what the subject holds and starts the quiet period afresh. *)
Record Subjects : Type := {
  noteTitleChanged : option Held;
  noteTextChanged : option Held;
  saveChangedAndCloseNoteWindow : option Held
}.

(** The value a subject lets go at time [t], if its quiet period is over. *)
Definition ripe (t : N) (held : option Held) : option string :=
  match held with
  | Some h => if (due h <=? t)%N then Some (value h) else None
  | None => None
  end.

(** The event handed to the [window:beforeunload] listener. *)
Record BeforeUnloadEvent : Type := {
  defaultPrevented : bool;
  returnValue : option string
}.

Inductive Exception : Type :=
| SyntaxError (text : string).

(** What the component does to the outside, in the order it does it. *)
Inductive Event : Type :=
| GetNote (id : string)
| SetNoteIsOpen (id : string) (isOpen : bool)
| RenameNote (id oldTitle newTitle : string)
| UpdateNoteContent (id textContent jsonContent : string)
| UpdateNote (id title textContent jsonContent : string)
| GetNoteContent (id : string)
| NoteTitleCannotBeEmpty
| OpenErrorDialog (errorText : string)
| WindowClose
| Uncaught (e : Exception).

(** The calls that save the title or the content of the note: [renameNote],
    [updateNoteContent] and [updateNote].  The store has one more operation
    that changes it, [setNoteIsOpen], which marks the note as open or not and
    is counted apart, by [isOpenMark]. *)
Definition isSaveCall (e : Event) : bool :=
  match e with
  | RenameNote _ _ _ | UpdateNoteContent _ _ _ | UpdateNote _ _ _ _ => true
  | _ => false
  end.

Definition isOpenMark (e : Event) : bool :=
  match e with
  | SetNoteIsOpen _ _ => true
  | _ => false
  end.

Definition isErrorSurface (e : Event) : bool :=
  match e with
  | OpenErrorDialog _ => true
  | _ => false
  end.

Definition isFlush (e : Event) : bool :=
  match e with
  | UpdateNote _ _ _ _ => true
  | _ => false
  end.

Definition isNoLongerOpen (e : Event) : bool :=
  match e with
  | SetNoteIsOpen _ false => true
  | _ => false
  end.

Definition isWindowClose (e : Event) : bool :=
  match e with
  | WindowClose => true
  | _ => false
  end.

Definition count (p : Event -> bool) (t : list Event) : nat :=
  List.length (filter p t).

(** Position of the first event of a kind. *)
Fixpoint position (p : Event -> bool) (t : list Event) : option nat :=
  match t with
  | [] => None
  | e :: t' => if p e then Some 0 else option_map S (position p t')
  end.

(** [precedes p q t]: an event of kind [p] and one of kind [q] occur in [t],
    the first [p] before the first [q]. *)
Definition precedes (p q : Event -> bool) (t : list Event) : bool :=
  match position p t, position q t with
  | Some i, Some j => (i <? j)%nat
  | _, _ => false
  end.

(** The test the close handler makes: is anything changed and not yet handed
    over at a close? *)
Definition isAnyDirty (c : NoteComponent) : bool :=
  isTitleChanged c || isContentChanged c.

(** ** The component, over its collaborators *)

Section Component.

Context {S Q : Type}.
Context `{CollectionService S} `{Quill Q} `{TranslateService}.

(** Everything a handler of the component can read or change: its own
    fields, the subjects, the editor, the collection service, the window it
    lives in with its clock, and the trace of what it did. *)
Record World : Type := {
  this : NoteComponent;
  subjects : Subjects;
  quill : Q;
  collectionService : S;
  windowOpen : bool;
  closeIssued : bool;
  now : N;
  trace : list Event
}.

Definition with_this (c : NoteComponent) (w : World) : World :=
  {| this := c; subjects := subjects w; quill := quill w;
     collectionService := collectionService w; windowOpen := windowOpen w;
     closeIssued := closeIssued w; now := now w; trace := trace w |}.

Definition with_subjects (s : Subjects) (w : World) : World :=
  {| this := this w; subjects := s; quill := quill w;
     collectionService := collectionService w; windowOpen := windowOpen w;
     closeIssued := closeIssued w; now := now w; trace := trace w |}.

Definition with_quill (q : Q) (w : World) : World :=
  {| this := this w; subjects := subjects w; quill := q;
     collectionService := collectionService w; windowOpen := windowOpen w;
     closeIssued := closeIssued w; now := now w; trace := trace w |}.

Definition with_collectionService (s : S) (w : World) : World :=
  {| this := this w; subjects := subjects w; quill := quill w;
     collectionService := s; windowOpen := windowOpen w;
     closeIssued := closeIssued w; now := now w; trace := trace w |}.

Definition with_window (open issued : bool) (w : World) : World :=
  {| this := this w; subjects := subjects w; quill := quill w;
     collectionService := collectionService w; windowOpen := open;
     closeIssued := issued; now := now w; trace := trace w |}.

Definition with_now (t : N) (w : World) : World :=
  {| this := this w; subjects := subjects w; quill := quill w;
     collectionService := collectionService w; windowOpen := windowOpen w;
     closeIssued := closeIssued w; now := t; trace := trace w |}.

Definition with_trace (t : list Event) (w : World) : World :=
  {| this := this w; subjects := subjects w; quill := quill w;
     collectionService := collectionService w; windowOpen := windowOpen w;
     closeIssued := closeIssued w; now := now w; trace := t |}.

(** *** A monad for the handlers: state, and the exceptions of JavaScript *)

Inductive Outcome (A : Type) : Type :=
| Returned (a : A) (w : World)
| Thrown (e : Exception) (w : World).

Arguments Returned {A} a w.
Arguments Thrown {A} e w.

Definition M (A : Type) : Type := World -> Outcome A.

Definition ret {A} (a : A) : M A := fun w => Returned a w.

Definition bind {A B} (m : M A) (k : A -> M B) : M B :=
  fun w =>
    match m w with
    | Returned a w' => k a w'
    | Thrown e w' => Thrown e w'
    end.

Definition throw {A} (e : Exception) : M A := fun w => Thrown e w.

Notation "x <- c1 ;; c2" := (bind c1 (fun x => c2))
  (at level 61, c1 at next level, right associativity).
Notation "c1 ;; c2" := (bind c1 (fun _ => c2))
  (at level 61, right associativity).

Definition gets {A} (f : World -> A) : M A := fun w => Returned (f w) w.

Definition modify (f : World -> World) : M unit := fun w => Returned tt (f w).

Definition emit (e : Event) : M unit :=
  modify (fun w => with_trace (trace w ++ [e]) w).

Definition update_this (f : NoteComponent -> NoteComponent) : M unit :=
  modify (fun w => with_this (f (this w)) w).

(** Assignments to the component's fields. *)
Definition set_changed (titleChanged contentChanged : bool) (c : NoteComponent)
  : NoteComponent :=
  {| isTitleChanged := titleChanged; isContentChanged := contentChanged;
     noteId := noteId c; originalNoteTitle := originalNoteTitle c;
     noteTitle := noteTitle c |}.

Definition set_noteId (v : string) (c : NoteComponent) : NoteComponent :=
  {| isTitleChanged := isTitleChanged c; isContentChanged := isContentChanged c;
     noteId := v; originalNoteTitle := originalNoteTitle c;
     noteTitle := noteTitle c |}.

Definition set_originalNoteTitle (v : string) (c : NoteComponent) : NoteComponent :=
  {| isTitleChanged := isTitleChanged c; isContentChanged := isContentChanged c;
     noteId := noteId c; originalNoteTitle := v; noteTitle := noteTitle c |}.

Definition set_noteTitle (v : string) (c : NoteComponent) : NoteComponent :=
  {| isTitleChanged := isTitleChanged c; isContentChanged := isContentChanged c;
     noteId := noteId c; originalNoteTitle := originalNoteTitle c;
     noteTitle := v |}.

(** [subject.next(v)] on a debounced subject: the value is held until the
    subject has been quiet for its period. *)
Definition next_noteTitleChanged (v : string) : M unit :=
  modify (fun w => with_subjects
    {| noteTitleChanged :=
         Some {| due := now w + saveTimeoutMilliseconds; value := v |};
       noteTextChanged := noteTextChanged (subjects w);
       saveChangedAndCloseNoteWindow := saveChangedAndCloseNoteWindow (subjects w) |} w).

Definition next_noteTextChanged (v : string) : M unit :=
  modify (fun w => with_subjects
    {| noteTitleChanged := noteTitleChanged (subjects w);
       noteTextChanged :=
         Some {| due := now w + saveTimeoutMilliseconds; value := v |};
       saveChangedAndCloseNoteWindow := saveChangedAndCloseNoteWindow (subjects w) |} w).

Definition next_saveChangedAndCloseNoteWindow (v : string) : M unit :=
  modify (fun w => with_subjects
    {| noteTitleChanged := noteTitleChanged (subjects w);
       noteTextChanged := noteTextChanged (subjects w);
       saveChangedAndCloseNoteWindow :=
         Some {| due := now w + windowCloseTimeoutMilliseconds; value := v |} |} w).

(** The end of a quiet period: the subject lets its value go, once. *)
Definition take_noteTitleChanged : M (option string) :=
  v <- gets (fun w => ripe (now w) (noteTitleChanged (subjects w))) ;;
  match v with
  | Some _ =>
      modify (fun w => with_subjects
        {| noteTitleChanged := None;
           noteTextChanged := noteTextChanged (subjects w);
           saveChangedAndCloseNoteWindow :=
             saveChangedAndCloseNoteWindow (subjects w) |} w) ;;
      ret v
  | None => ret None
  end.

Definition take_noteTextChanged : M (option string) :=
  v <- gets (fun w => ripe (now w) (noteTextChanged (subjects w))) ;;
  match v with
  | Some _ =>
      modify (fun w => with_subjects
        {| noteTitleChanged := noteTitleChanged (subjects w);
           noteTextChanged := None;
           saveChangedAndCloseNoteWindow :=
             saveChangedAndCloseNoteWindow (subjects w) |} w) ;;
      ret v
  | None => ret None
  end.

Definition take_saveChangedAndCloseNoteWindow : M (option string) :=
  v <- gets (fun w => ripe (now w) (saveChangedAndCloseNoteWindow (subjects w))) ;;
  match v with
  | Some _ =>
      modify (fun w => with_subjects
        {| noteTitleChanged := noteTitleChanged (subjects w);
           noteTextChanged := noteTextChanged (subjects w);
           saveChangedAndCloseNoteWindow := None |} w) ;;
      ret v
  | None => ret None
  end.

(** *** Calls into the collaborators, each leaving its mark in the trace *)

Definition collectionService_getNote (id : string) : M Note.t :=
  emit (GetNote id) ;;
  gets (fun w => getNote (collectionService w) id).

Definition collectionService_setNoteIsOpen (id : string) (isOpen : bool) : M unit :=
  emit (SetNoteIsOpen id isOpen) ;;
  modify (fun w =>
    with_collectionService (setNoteIsOpen (collectionService w) id isOpen) w).

Definition collectionService_renameNote (id oldTitle newTitle : string)
  : M RenameNoteResult.t :=
  emit (RenameNote id oldTitle newTitle) ;;
  r <- gets (fun w => renameNote (collectionService w) id oldTitle newTitle) ;;
  modify (with_collectionService (snd r)) ;;
  ret (fst r).

Definition collectionService_updateNoteContent (id text jsonContent : string)
  : M Operation :=
  emit (UpdateNoteContent id text jsonContent) ;;
  r <- gets (fun w => updateNoteContent (collectionService w) id text jsonContent) ;;
  modify (with_collectionService (snd r)) ;;
  ret (fst r).

Definition collectionService_updateNote (id title text jsonContent : string)
  : M Operation :=
  emit (UpdateNote id title text jsonContent) ;;
  r <- gets (fun w => updateNote (collectionService w) id title text jsonContent) ;;
  modify (with_collectionService (snd r)) ;;
  ret (fst r).

Definition collectionService_getNoteContent (id : string)
  : M GetNoteContentResult.t :=
  emit (GetNoteContent id) ;;
  gets (fun w => getNoteContent (collectionService w) id).

Definition snackBarService_noteTitleCannotBeEmptyAsync : M unit :=
  emit NoteTitleCannotBeEmpty.

Definition dialog_open (errorText : string) : M unit :=
  emit (OpenErrorDialog errorText).

Definition translateService_get (key : string) (params : list (string * string))
  : M string :=
  ret (translate key params).

Definition quill_getText : M string := gets (fun w => getText (quill w)).

Definition quill_getContents : M json := gets (fun w => getContents (quill w)).

(** [quill.setContents(delta, 'silent')]: silent, so no [text-change]. *)
Definition quill_setContents (delta : json) : M unit :=
  modify (fun w => with_quill (setContents (quill w) delta) w).

Definition JSON_parse (text : string) : M json :=
  match JSON.parse text with
  | Some v => ret v
  | None => throw (SyntaxError text)
  end.

(** [window.close()] on the current window: the request is recorded; the
    window answers it with a [beforeunload] of its own. *)
Definition window_close : M unit :=
  emit WindowClose ;;
  modify (fun w => with_window (windowOpen w) true w).

(** *** The methods of [NoteComponent] *)

(** The [window:beforeunload] listener.  It answers with the event as it
    leaves it: prevented when something was changed. *)
Definition beforeunloadHandler (event : BeforeUnloadEvent) : M BeforeUnloadEvent :=
  c <- gets this ;;
  if isTitleChanged c || isContentChanged c then
    update_this (set_changed false false) ;;
    next_saveChangedAndCloseNoteWindow "" ;;
    ret {| defaultPrevented := true; returnValue := Some "" |}
  else
    collectionService_setNoteIsOpen (noteId c) false ;;
    ret event.

(** The handler of Quill's [text-change]. *)
Definition onTextChange : M unit :=
  update_this (fun c => set_changed (isTitleChanged c) true c) ;;
  next_noteTextChanged "".

Definition onNotetitleChange (newNoteTitle : string) : M unit :=
  update_this (fun c => set_changed true (isContentChanged c) c) ;;
  next_noteTitleChanged newNoteTitle.

(** The [await] of the error text is the only suspension.  The translate
    service is taken to answer, and the method to go on before another
    handler runs, so the method runs here in one piece. *)
Definition saveNoteTitleAsync (newNoteTitle : string) : M unit :=
  c <- gets this ;;
  renameNoteResult <-
    collectionService_renameNote (noteId c) (originalNoteTitle c) newNoteTitle ;;
  match RenameNoteResult.operation renameNoteResult with
  | Blank =>
      c <- gets this ;;
      update_this (set_noteTitle (originalNoteTitle c)) ;;
      snackBarService_noteTitleCannotBeEmptyAsync
  | Error =>
      c <- gets this ;;
      update_this (set_noteTitle (originalNoteTitle c)) ;;
      c <- gets this ;;
      generatedErrorText <-
        translateService_get "ErrorTexts.RenameNoteError"
          [("noteTitle", originalNoteTitle c)] ;;
      dialog_open generatedErrorText
  | Success =>
      update_this
        (set_originalNoteTitle (RenameNoteResult.newNoteTitle renameNoteResult)) ;;
      update_this (set_noteTitle (RenameNoteResult.newNoteTitle renameNoteResult))
  | Unlisted _ =>
      ret tt
  end.

Definition saveNoteContentAsync : M unit :=
  textContent <- quill_getText ;;
  contents <- quill_getContents ;;
  let jsonContent := JSON.stringify contents in
  c <- gets this ;;
  operation <- collectionService_updateNoteContent (noteId c) textContent jsonContent ;;
  match operation with
  | Error =>
      generatedErrorText <-
        translateService_get "ErrorTexts.UpdateNoteContentError" [] ;;
      dialog_open generatedErrorText
  | _ =>
      ret tt
  end.

Definition saveNoteAll : M unit :=
  textContent <- quill_getText ;;
  contents <- quill_getContents ;;
  let jsonContent := JSON.stringify contents in
  c <- gets this ;;
  _ <- collectionService_updateNote (noteId c) (noteTitle c) textContent jsonContent ;;
  ret tt.

Definition getNoteContentAsync : M unit :=
  c <- gets this ;;
  getNoteContentResult <- collectionService_getNoteContent (noteId c) ;;
  match GetNoteContentResult.operation getNoteContentResult with
  | Error =>
      generatedErrorText <-
        translateService_get "ErrorTexts.GetNoteContentError" [] ;;
      dialog_open generatedErrorText
  | _ =>
      match GetNoteContentResult.noteContent getNoteContentResult with
      | Some (String a content) =>
          delta <- JSON_parse (String a content) ;;
          quill_setContents delta
      | Some EmptyString | None =>
          ret tt
      end
  end.

(** The subscriber of the route's [queryParams] in [ngOnInit]. *)
Definition onQueryParams (id : string) : M unit :=
  note <- collectionService_getNote id ;;
  collectionService_setNoteIsOpen (Note.id note) true ;;
  update_this (set_noteId (Note.id note)) ;;
  update_this (set_originalNoteTitle (Note.title note)) ;;
  update_this (set_noteTitle (Note.title note)) ;;
  getNoteContentAsync.

(** The subscribers of the three debounced subjects in [ngOnInit]. *)
Definition onNoteTitleChanged (newNoteTitle : string) : M unit :=
  saveNoteTitleAsync newNoteTitle.

Definition onNoteTextChanged (_ : string) : M unit :=
  saveNoteContentAsync.

Definition onSaveChangedAndCloseNoteWindow (_ : string) : M unit :=
  c <- gets this ;;
  collectionService_setNoteIsOpen (noteId c) false ;;
  saveNoteAll ;;
  window_close.

(** *** The window around the component

    What reaches the component from outside: the route's parameters, the
    user's edits, the timer of a debounced subject, and [beforeunload],
    which the window raises when the user closes it and when
    [window.close()] asks it to.  Time passes between the turns of the
    event loop.  A timer that comes before its quiet period is over finds
    nothing to hand on.  A close the listener does not prevent ends the
    window, and with it every handler and timer. *)

Inductive Channel : Type := TitleChannel | TextChannel | CloseChannel.

Inductive Input : Type :=
| QueryParams (id : string)
| NotetitleChange (newNoteTitle : string)
| TextChange (edited : Q)
| BeforeUnload
| Elapsed (channel : Channel)
| Tick (milliseconds : N).

Definition cancelled (event : BeforeUnloadEvent) : bool :=
  defaultPrevented event
  || match returnValue event with Some _ => true | None => false end.

Definition elapsed (channel : Channel) : M unit :=
  match channel with
  | TitleChannel =>
      held <- take_noteTitleChanged ;;
      match held with Some v => onNoteTitleChanged v | None => ret tt end
  | TextChannel =>
      held <- take_noteTextChanged ;;
      match held with Some v => onNoteTextChanged v | None => ret tt end
  | CloseChannel =>
      held <- take_saveChangedAndCloseNoteWindow ;;
      match held with Some v => onSaveChangedAndCloseNoteWindow v | None => ret tt end
  end.

Definition deliver (i : Input) : M unit :=
  match i with
  | QueryParams id => onQueryParams id
  | NotetitleChange newNoteTitle => onNotetitleChange newNoteTitle
  | TextChange edited => modify (with_quill edited) ;; onTextChange
  | BeforeUnload =>
      event <- beforeunloadHandler {| defaultPrevented := false; returnValue := None |} ;;
      modify (with_window (cancelled event) false)
  | Elapsed channel => elapsed channel
  | Tick milliseconds => modify (fun w => with_now (now w + milliseconds) w)
  end.

(** One turn of the event loop.  An exception no handler catches is reported
    and the loop goes on. *)
Definition step (i : Input) (w : World) : World :=
  if windowOpen w then
    match deliver i w with
    | Returned _ w' => w'
    | Thrown e w' => with_trace (trace w' ++ [Uncaught e]) w'
    end
  else w.

Definition run (inputs : list Input) (w : World) : World :=
  fold_left (fun w i => step i w) inputs w.

(** The world [ngOnInit] leaves: nothing changed, nothing held, the window
    open.  (It also starts the data store and asks for the placeholder
    text, which are the collaborators' affair.) *)
Definition ngOnInit (store : S) (editor : Q) : World :=
  {| this := {| isTitleChanged := false; isContentChanged := false;
                noteId := ""; originalNoteTitle := ""; noteTitle := "" |};
     subjects := {| noteTitleChanged := None; noteTextChanged := None;
                    saveChangedAndCloseNoteWindow := None |};
     quill := editor;
     collectionService := store;
     windowOpen := true;
     closeIssued := false;
     now := 0;
     trace := [] |}.

(** The events a run added to the trace of the world it started from. *)
Definition since (w w' : World) : list Event :=
  skipn (List.length (trace w)) (trace w').

(** Modelled from the spec: the four states of the close interceptor.  The
    component has no field for them; they are read off the window and the
    close subject. *)
Inductive InterceptorState : Type := Open | InterceptedDirty | Flushing | Closed.

Definition interceptorState (w : World) : InterceptorState :=
  if negb (windowOpen w) then Closed
  else if closeIssued w then Flushing
  else match saveChangedAndCloseNoteWindow (subjects w) with
       | Some _ => InterceptedDirty
       | None => Open
       end.

(** What the collection service answers when the component asks it from the
    world [w]. *)
Definition renameAnswer (w : World) (newNoteTitle : string) : RenameNoteResult.t :=
  fst (renameNote (collectionService w) (noteId (this w))
         (originalNoteTitle (this w)) newNoteTitle).

Definition contentAnswer (w : World) : Operation :=
  fst (updateNoteContent (collectionService w) (noteId (this w))
         (getText (quill w)) (JSON.stringify (getContents (quill w)))).

Definition flushAnswer (w : World) : Operation :=
  fst (updateNote (collectionService w) (noteId (this w)) (noteTitle (this w))
         (getText (quill w)) (JSON.stringify (getContents (quill w)))).

Definition isError (op : Operation) : bool :=
  match op with Error => true | _ => false end.

(** [performAction], which the source leaves empty. *)
Definition performAction : M unit := ret tt.

(** A burst of edits on one channel: before each edit some time passes and
    the timer of the channel is given its turn. *)
Definition titleBurst (edits : list (N * string)) : list Input :=
  flat_map (fun e => [Tick (fst e); Elapsed TitleChannel; NotetitleChange (snd e)])
    edits.

Definition textBurst (edits : list (N * Q)) : list Input :=
  flat_map (fun e => [Tick (fst e); Elapsed TextChannel; TextChange (snd e)])
    edits.

(** Whether an event is a call of the given store operation. *)
Definition isRename (e : Event) : bool :=
  match e with
  | RenameNote _ _ _ => true
  | _ => false
  end.

Definition isContentUpdate (e : Event) : bool :=
  match e with
  | UpdateNoteContent _ _ _ => true
  | _ => false
  end.

(** What the collection service answers when the component asks for the
    content of its note from the world [w]. *)
Definition loadAnswer (w : World) : GetNoteContentResult.t :=
  getNoteContent (collectionService w) (noteId (this w)).

(** The world in which the load of the content starts, once the route has
    named the note. *)
Definition routedTo (id : string) (w : World) : World :=
  let note := getNote (collectionService w) id in
  with_this
    (set_noteTitle (Note.title note)
       (set_originalNoteTitle (Note.title note)
          (set_noteId (Note.id note) (this w))))
    (with_collectionService
       (setNoteIsOpen (collectionService w) (Note.id note) true)
       (with_trace (trace w ++ [GetNote id; SetNoteIsOpen (Note.id note) true]) w)).

End Component.

Arguments World : clear implicits.
Arguments Returned {S Q A} a w.
Arguments Thrown {S Q A} e w.

(** ** Stand-ins for the collaborators

    Instances of the three interfaces to run the component on. *)

Module Fake.

Definition trimStart := JSON.skip_ws.

Definition reverse (s : string) : string :=
  string_of_list_ascii (rev (list_ascii_of_string s)).

(** [String.prototype.trim], on the white space of ASCII. *)
Definition trim (s : string) : string :=
  reverse (trimStart (reverse (trimStart s))).

Record StoredNote : Type := {
  note : Note.t;
  textContent : string;
  structuredContent : option string;
  isOpen : bool
}.

(** Modelled from the spec: the collection service is not among the sources.
    This one keeps its notes in memory and follows sections 3, 4.3 and 6 of
    the spec: a rename answers [Blank] for a title that is empty once
    trimmed, [Error] for a note it does not hold or a title another note
    has, and [Success] with the trimmed title otherwise.  When [fault] is
    set, every operation that can fail answers with it and changes nothing. *)
Record Store : Type := {
  notes : list StoredNote;
  fault : option Operation
}.

Definition has_id (i : string) (n : StoredNote) : bool :=
  String.eqb (Note.id (note n)) i.

Definition amend (i : string) (f : StoredNote -> StoredNote) (s : Store) : Store :=
  {| notes := map (fun n => if has_id i n then f n else n) (notes s);
     fault := fault s |}.

Definition getNote (s : Store) (i : string) : Note.t :=
  match find (has_id i) (notes s) with
  | Some n => note n
  | None => {| Note.id := i; Note.title := "" |}
  end.

Definition setNoteIsOpen (s : Store) (i : string) (b : bool) : Store :=
  amend i (fun n => {| note := note n; textContent := textContent n;
                       structuredContent := structuredContent n; isOpen := b |}) s.

Definition taken (i t : string) (s : Store) : bool :=
  existsb (fun n => negb (has_id i n) && String.eqb (Note.title (note n)) t) (notes s).

Definition renameNote (s : Store) (i oldTitle newTitle : string)
  : RenameNoteResult.t * Store :=
  let answer op t := {| RenameNoteResult.operation := op;
                        RenameNoteResult.newNoteTitle := t |} in
  match fault s with
  | Some op => (answer op "", s)
  | None =>
      match trim newTitle with
      | EmptyString => (answer Blank "", s)
      | String a t =>
          if existsb (has_id i) (notes s) && negb (taken i (String a t) s) then
            (answer Success (String a t),
             amend i (fun n => {| note := {| Note.id := i; Note.title := String a t |};
                                  textContent := textContent n;
                                  structuredContent := structuredContent n;
                                  isOpen := isOpen n |}) s)
          else (answer Error "", s)
      end
  end.

Definition updateNoteContent (s : Store) (i text jsonContent : string)
  : Operation * Store :=
  match fault s with
  | Some op => (op, s)
  | None =>
      if existsb (has_id i) (notes s) then
        (Success,
         amend i (fun n => {| note := note n; textContent := text;
                              structuredContent := Some jsonContent;
                              isOpen := isOpen n |}) s)
      else (Error, s)
  end.

Definition updateNote (s : Store) (i t text jsonContent : string)
  : Operation * Store :=
  match fault s with
  | Some op => (op, s)
  | None =>
      if existsb (has_id i) (notes s) then
        (Success,
         amend i (fun n => {| note := {| Note.id := i; Note.title := t |};
                              textContent := text;
                              structuredContent := Some jsonContent;
                              isOpen := isOpen n |}) s)
      else (Error, s)
  end.

Definition getNoteContent (s : Store) (i : string) : GetNoteContentResult.t :=
  match fault s, find (has_id i) (notes s) with
  | None, Some n =>
      {| GetNoteContentResult.operation := Success;
         GetNoteContentResult.noteContent := structuredContent n |}
  | Some op, _ =>
      {| GetNoteContentResult.operation := op;
         GetNoteContentResult.noteContent := None |}
  | None, None =>
      {| GetNoteContentResult.operation := Error;
         GetNoteContentResult.noteContent := None |}
  end.

#[global] Instance store : CollectionService Store := {
  getNote := getNote;
  setNoteIsOpen := setNoteIsOpen;
  renameNote := renameNote;
  updateNoteContent := updateNoteContent;
  updateNote := updateNote;
  getNoteContent := getNoteContent
}.

(** An editor that holds a Delta and the plain text of its inserts. *)
Record Editor : Type := { text : string; delta : json }.

Fixpoint member (key : string) (ms : list (string * json)) : option json :=
  match ms with
  | [] => None
  | (k, v) :: ms' => if String.eqb k key then Some v else member key ms'
  end.

Definition insertOf (op : json) : string :=
  match op with
  | JObject ms => match member "insert" ms with Some (JString s) => s | _ => "" end
  | _ => ""
  end.

Definition plainText (d : json) : string :=
  match d with
  | JObject ms =>
      match member "ops" ms with
      | Some (JArray ops) => String.concat "" (map insertOf ops)
      | _ => ""
      end
  | _ => ""
  end.

#[global] Instance editor : Quill Editor := {
  getText := text;
  getContents := delta;
  setContents := fun _ d => {| text := plainText d; delta := d |}
}.

(** A translate service without translations: it answers with the key. *)
#[global] Instance translations : TranslateService := {
  translate := fun key _ => key
}.

Definition placeholder : Editor := {| text := ""; delta := JObject [] |}.

Definition stored (content : string) : Store :=
  {| notes := [ {| note := {| Note.id := "n1"; Note.title := "Old" |};
                   textContent := "";
                   structuredContent := Some content;
                   isOpen := false |} ];
     fault := None |}.

(** The window of note [n1], titled [Old], once its route has arrived. *)
Definition opened : World Store Editor :=
  step (QueryParams "n1") (ngOnInit (stored "{}") placeholder).

(** The same window once the store has begun to fail with [op]. *)
Definition failing (op : Operation) : World Store Editor :=
  with_collectionService
    {| notes := notes (collectionService opened); fault := Some op |} opened.

(** The same window with [t] typed into the title box, which the template
    binds to the field [noteTitle]. *)
Definition typed (t : string) (w : World Store Editor) : World Store Editor :=
  with_this (set_noteTitle t (this w)) w.

End Fake.


(** ** Scenes to run the component through *)

Module Scenario.

(** The user has typed [t] over the title of the open note. *)
Definition edited (t : string) : World Fake.Store Fake.Editor :=
  step (NotetitleChange t) (Fake.typed t Fake.opened).

(** ... and, four and a half seconds later, closed the window: the close is
    held back. *)
Definition intercepted : World Fake.Store Fake.Editor :=
  run [Tick 4500; BeforeUnload] (edited "New").

(** ... and the grace delay has passed: the close sequence has run, at the
    very time the quiet period of the title ends. *)
Definition flushing : World Fake.Store Fake.Editor :=
  run [Tick 500; Elapsed CloseChannel] intercepted.

(** The quiet period after an edit is over. *)
Definition quiet (w : World Fake.Store Fake.Editor) : World Fake.Store Fake.Editor :=
  step (Tick saveTimeoutMilliseconds) w.

(** The store fails with [op] from the edit on. *)
Definition edited_on_failing_store (op : Operation) : World Fake.Store Fake.Editor :=
  step (NotetitleChange "New") (Fake.typed "New" (Fake.failing op)).

(** The note as a torn write left it in the store. *)
Definition torn : string :=
  ("{" ++ JSON.quote "ops" ++ ":[{" ++ JSON.quote "insert" ++ ":"
   ++ String JSON.dquote "He")%string.

Definition before_load : World Fake.Store Fake.Editor :=
  ngOnInit (Fake.stored torn) Fake.placeholder.

(** The route has named the note; its content is yet to be fetched. *)
Definition routed : World Fake.Store Fake.Editor :=
  with_this (set_noteId "n1" (this before_load)) before_load.

(** The user has typed a title, closed the window a second later, and the
    grace delay has passed: the close sequence has run. *)
Definition flushed : World Fake.Store Fake.Editor :=
  run [Tick 1000; BeforeUnload; Tick 500; Elapsed CloseChannel] (edited "New").

(** The route has named note [n1], whose stored content is [content]; the
    content is yet to be fetched. *)
Definition routedWith (content : string) : World Fake.Store Fake.Editor :=
  with_this
    (set_noteId "n1" (this (ngOnInit (Fake.stored content) Fake.placeholder)))
    (ngOnInit (Fake.stored content) Fake.placeholder).

(** Content as a content save writes it: one insert of [hi]. *)
Definition savedTail : string :=
  (JSON.quote "ops" ++ ":[{" ++ JSON.quote "insert" ++ ":" ++ JSON.quote "hi"
   ++ "}]}")%string.

Definition savedDelta : json :=
  JObject [("ops", JArray [JObject [("insert", JString "hi")]])].

(** The editor after the user has typed [text]. *)
Definition typedInto (text : string) : Fake.Editor :=
  {| Fake.text := text;
     Fake.delta := JObject [("ops", JArray [JObject [("insert", JString text)]])] |}.

End Scenario.

(** ** Properties of the component, for every collaborator *)

Section Properties.

Context {S Q : Type}.
Context `{CollectionService S} `{Quill Q} `{TranslateService}.

Implicit Type w : World S Q.

Lemma since_app w w' (added : list Event) :
  trace w' = trace w ++ added -> since w w' = added.
Proof.
  intros E. unfold since. rewrite E. clear E.
  induction (trace w) as [|e t IH]; [reflexivity | exact IH].
Qed.

Lemma since_refl w w' : trace w' = trace w -> since w w' = [].
Proof.
  intros E. apply since_app. now rewrite app_nil_r.
Qed.

Ltac handler :=
  cbv [saveNoteTitleAsync saveNoteContentAsync saveNoteAll getNoteContentAsync
       beforeunloadHandler onNotetitleChange onTextChange
       onNoteTitleChanged onNoteTextChanged onSaveChangedAndCloseNoteWindow
       collectionService_renameNote collectionService_updateNoteContent
       collectionService_updateNote collectionService_setNoteIsOpen
       collectionService_getNoteContent
       snackBarService_noteTitleCannotBeEmptyAsync dialog_open
       translateService_get quill_getText quill_getContents quill_setContents
       window_close next_noteTitleChanged next_noteTextChanged
       next_saveChangedAndCloseNoteWindow take_noteTitleChanged
       take_noteTextChanged take_saveChangedAndCloseNoteWindow
       bind ret gets modify emit update_this];
  cbn [this subjects quill collectionService windowOpen closeIssued trace
       with_this with_subjects with_quill with_collectionService with_window
       with_trace].

(** The title save in full: where it ends, for each answer of the store. *)
Lemma saveNoteTitleAsync_spec w (newNoteTitle : string) :
  let asked := RenameNote (noteId (this w)) (originalNoteTitle (this w)) newNoteTitle in
  let store' := snd (renameNote (collectionService w) (noteId (this w))
                       (originalNoteTitle (this w)) newNoteTitle) in
  let w1 := with_collectionService store' (with_trace (trace w ++ [asked]) w) in
  saveNoteTitleAsync newNoteTitle w =
  Returned tt
    match RenameNoteResult.operation (renameAnswer w newNoteTitle) with
    | Blank =>
        with_trace (trace w ++ [asked; NoteTitleCannotBeEmpty])
          (with_this (set_noteTitle (originalNoteTitle (this w)) (this w)) w1)
    | Error =>
        with_trace
          (trace w ++ [asked;
             OpenErrorDialog (translate "ErrorTexts.RenameNoteError"
                                [("noteTitle", originalNoteTitle (this w))])])
          (with_this (set_noteTitle (originalNoteTitle (this w)) (this w)) w1)
    | Success =>
        with_this
          (set_noteTitle (RenameNoteResult.newNoteTitle (renameAnswer w newNoteTitle))
             (set_originalNoteTitle
                (RenameNoteResult.newNoteTitle (renameAnswer w newNoteTitle)) (this w)))
          w1
    | Unlisted _ => w1
    end.
Proof.
  handler. unfold renameAnswer.
  destruct (RenameNoteResult.operation _); cbn;
    rewrite <- ?app_assoc; reflexivity.
Qed.

Lemma saveNoteContentAsync_spec w :
  let asked := UpdateNoteContent (noteId (this w)) (getText (quill w))
                 (JSON.stringify (getContents (quill w))) in
  let store' := snd (updateNoteContent (collectionService w) (noteId (this w))
                       (getText (quill w)) (JSON.stringify (getContents (quill w)))) in
  let w1 := with_collectionService store' (with_trace (trace w ++ [asked]) w) in
  saveNoteContentAsync w =
  Returned tt
    match contentAnswer w with
    | Error =>
        with_trace
          (trace w ++ [asked;
             OpenErrorDialog (translate "ErrorTexts.UpdateNoteContentError" [])])
          w1
    | _ => w1
    end.
Proof.
  handler. unfold contentAnswer.
  destruct (fst _); cbn; rewrite <- ?app_assoc; reflexivity.
Qed.

Lemma saveNoteAll_spec w :
  saveNoteAll w =
  Returned tt
    (with_collectionService
       (snd (updateNote (collectionService w) (noteId (this w)) (noteTitle (this w))
               (getText (quill w)) (JSON.stringify (getContents (quill w)))))
       (with_trace
          (trace w ++ [UpdateNote (noteId (this w)) (noteTitle (this w))
                         (getText (quill w)) (JSON.stringify (getContents (quill w)))])
          w)).
Proof. reflexivity. Qed.

(** The load of the content: the one place where a handler can throw. *)
Lemma getNoteContentAsync_spec w :
  let r := getNoteContent (collectionService w) (noteId (this w)) in
  let w1 := with_trace (trace w ++ [GetNoteContent (noteId (this w))]) w in
  getNoteContentAsync w =
  match GetNoteContentResult.operation r with
  | Error =>
      Returned tt
        (with_trace
           (trace w ++ [GetNoteContent (noteId (this w));
              OpenErrorDialog (translate "ErrorTexts.GetNoteContentError" [])])
           w)
  | _ =>
      match GetNoteContentResult.noteContent r with
      | Some (String a content) =>
          match JSON.parse (String a content) with
          | Some delta => Returned tt (with_quill (setContents (quill w) delta) w1)
          | None => Thrown (SyntaxError (String a content)) w1
          end
      | _ => Returned tt w1
      end
  end.
Proof.
  handler.
  destruct (GetNoteContentResult.operation _); cbn; rewrite <- ?app_assoc;
    try reflexivity;
    destruct (GetNoteContentResult.noteContent _) as [[|a content]|];
    try reflexivity;
    unfold JSON_parse; destruct (JSON.parse _); reflexivity.
Qed.

(** Once the window is gone nothing runs any more. *)
Lemma closed_absorbing w (i : Input) :
  interceptorState w = Closed -> step i w = w.
Proof.
  unfold interceptorState, step.
  destruct (windowOpen w); cbn; [|reflexivity].
  destruct (closeIssued w); [discriminate|].
  destruct (saveChangedAndCloseNoteWindow _); discriminate.
Qed.

Lemma not_closed_open w :
  interceptorState w <> Closed -> windowOpen w = true.
Proof.
  unfold interceptorState. destruct (windowOpen w); cbn; congruence.
Qed.

Lemma ripe_after (t d ms : N) (v : string) :
  ripe (t + ms) (Some {| due := t + d; value := v |}) =
  if (d <=? ms)%N then Some v else None.
Proof.
  unfold ripe. cbn [due value].
  destruct (N.leb_spec (t + d) (t + ms)), (N.leb_spec d ms);
    solve [reflexivity | lia].
Qed.

(** The close signal, on an open window. *)
Lemma step_BeforeUnload w :
  windowOpen w = true ->
  step BeforeUnload w =
  if isAnyDirty (this w) then
    with_window true false
      (with_subjects
         {| noteTitleChanged := noteTitleChanged (subjects w);
            noteTextChanged := noteTextChanged (subjects w);
            saveChangedAndCloseNoteWindow :=
              Some {| due := now w + windowCloseTimeoutMilliseconds; value := "" |} |}
         (with_this (set_changed false false (this w)) w))
  else
    with_window false false
      (with_collectionService
         (setNoteIsOpen (collectionService w) (noteId (this w)) false)
         (with_trace (trace w ++ [SetNoteIsOpen (noteId (this w)) false]) w)).
Proof.
  intros Ho. unfold step, deliver. rewrite Ho. handler. unfold isAnyDirty.
  destruct (isTitleChanged (this w) || isContentChanged (this w)); reflexivity.
Qed.

Lemma step_Tick w (ms : N) :
  windowOpen w = true -> step (Tick ms) w = with_now (now w + ms) w.
Proof.
  intros Ho. unfold step. rewrite Ho. reflexivity.
Qed.

(** The timer of a subject, on an open window: what the subject lets go
    reaches the subscriber, and the subject is empty again; before the
    quiet period is over nothing happens. *)
Lemma step_Elapsed_TitleChannel w :
  windowOpen w = true ->
  step (Elapsed TitleChannel) w =
  match ripe (now w) (noteTitleChanged (subjects w)) with
  | Some t =>
      match saveNoteTitleAsync t
              (with_subjects
                 {| noteTitleChanged := None;
                    noteTextChanged := noteTextChanged (subjects w);
                    saveChangedAndCloseNoteWindow :=
                      saveChangedAndCloseNoteWindow (subjects w) |} w) with
      | Returned _ w' => w'
      | Thrown e w' => with_trace (trace w' ++ [Uncaught e]) w'
      end
  | None => w
  end.
Proof.
  intros Ho. unfold step. rewrite Ho.
  cbv [deliver elapsed take_noteTitleChanged onNoteTitleChanged
       bind gets modify ret].
  destruct (ripe _ _); reflexivity.
Qed.

Lemma step_Elapsed_TextChannel w :
  windowOpen w = true ->
  step (Elapsed TextChannel) w =
  match ripe (now w) (noteTextChanged (subjects w)) with
  | Some _ =>
      match saveNoteContentAsync
              (with_subjects
                 {| noteTitleChanged := noteTitleChanged (subjects w);
                    noteTextChanged := None;
                    saveChangedAndCloseNoteWindow :=
                      saveChangedAndCloseNoteWindow (subjects w) |} w) with
      | Returned _ w' => w'
      | Thrown e w' => with_trace (trace w' ++ [Uncaught e]) w'
      end
  | None => w
  end.
Proof.
  intros Ho. unfold step. rewrite Ho.
  cbv [deliver elapsed take_noteTextChanged onNoteTextChanged
       bind gets modify ret].
  destruct (ripe _ _); reflexivity.
Qed.

Lemma step_Elapsed_CloseChannel w :
  windowOpen w = true ->
  step (Elapsed CloseChannel) w =
  match ripe (now w) (saveChangedAndCloseNoteWindow (subjects w)) with
  | Some v =>
      match onSaveChangedAndCloseNoteWindow v
              (with_subjects
                 {| noteTitleChanged := noteTitleChanged (subjects w);
                    noteTextChanged := noteTextChanged (subjects w);
                    saveChangedAndCloseNoteWindow := None |} w) with
      | Returned _ w' => w'
      | Thrown e w' => with_trace (trace w' ++ [Uncaught e]) w'
      end
  | None => w
  end.
Proof.
  intros Ho. unfold step. rewrite Ho.
  cbv [deliver elapsed take_saveChangedAndCloseNoteWindow
       bind gets modify ret].
  destruct (ripe _ _); reflexivity.
Qed.

(** C1 (amended).  When the close signal arrives while a dirty flag is set,
    the close is suppressed: the window stays open, both flags are cleared,
    no store call is made and the close subject holds a request, due after
    the grace delay.  Until that delay has passed nothing more happens.
    Once it has, the close sequence first tells the store that the note is
    no longer open, then runs the flush-all (one [updateNote] with title,
    text and serialized contents, whose answer is dropped), and only then
    issues the real close; the flush-all has returned before the close is
    issued. *)
Theorem close_sequence_when_dirty w (ms : N) :
  windowOpen w = true ->
  isAnyDirty (this w) = true ->
  let w1 := step BeforeUnload w in
  let w2 := step (Elapsed CloseChannel) (step (Tick ms) w1) in
  (windowOpen w1 = true /\ isAnyDirty (this w1) = false
   /\ saveChangedAndCloseNoteWindow (subjects w1) =
        Some {| due := now w + windowCloseTimeoutMilliseconds; value := "" |}
   /\ since w w1 = [] /\ interceptorState w1 = InterceptedDirty)
  /\ if (windowCloseTimeoutMilliseconds <=? ms)%N then
       since w w2 =
         [SetNoteIsOpen (noteId (this w)) false;
          UpdateNote (noteId (this w)) (noteTitle (this w)) (getText (quill w))
            (JSON.stringify (getContents (quill w)));
          WindowClose]
       /\ precedes isNoLongerOpen isFlush (since w w2) = true
       /\ precedes isFlush isWindowClose (since w w2) = true
       /\ interceptorState w2 = Flushing
     else
       since w w2 = [] /\ interceptorState w2 = InterceptedDirty.
Proof.
  intros Ho Hd. cbv zeta. rewrite (step_BeforeUnload w Ho), Hd.
  split.
  - rewrite since_refl by reflexivity. repeat split; reflexivity.
  - rewrite step_Tick by reflexivity.
    rewrite step_Elapsed_CloseChannel by reflexivity.
    cbn [now subjects with_now with_window with_subjects with_this
         saveChangedAndCloseNoteWindow].
    rewrite ripe_after.
    destruct (windowCloseTimeoutMilliseconds <=? ms)%N.
    + erewrite since_app by (cbn; rewrite <- !app_assoc; reflexivity).
      repeat split; reflexivity.
    + rewrite since_refl by reflexivity. split; reflexivity.
Qed.

(** C2 (amended).  A debounced save attempt leaves both dirty flags as they
    were, whatever its outcome: neither the title save nor the content save
    writes them, and only the close handler clears them.  In particular,
    after a title edit and the save it schedules, with no further edit,
    [isAnyDirty] still answers true. *)
Theorem save_attempts_keep_dirty_flags w (newNoteTitle : string) :
  (exists w', saveNoteTitleAsync newNoteTitle w = Returned tt w'
     /\ isTitleChanged (this w') = isTitleChanged (this w)
     /\ isContentChanged (this w') = isContentChanged (this w))
  /\ (exists w', saveNoteContentAsync w = Returned tt w'
     /\ isTitleChanged (this w') = isTitleChanged (this w)
     /\ isContentChanged (this w') = isContentChanged (this w))
  /\ (exists w1 w2, onNotetitleChange newNoteTitle w = Returned tt w1
     /\ saveNoteTitleAsync newNoteTitle w1 = Returned tt w2
     /\ isAnyDirty (this w2) = true).
Proof.
  split; [|split].
  - eexists. split; [apply saveNoteTitleAsync_spec|].
    destruct (RenameNoteResult.operation _); split; reflexivity.
  - eexists. split; [apply saveNoteContentAsync_spec|].
    destruct (contentAnswer w); split; reflexivity.
  - eexists. eexists. split; [reflexivity|].
    split; [apply saveNoteTitleAsync_spec|].
    destruct (RenameNoteResult.operation _); reflexivity.
Qed.

(** C3 (amended).  The title save hands every proposed title to the store's
    rename operation, exactly once; the check for a title that is empty once
    trimmed is the store's.  When the store answers [Blank], the local title
    goes back to the last-known-good title, which stays as it was, and the
    blank-title notice is shown; nothing else is called. *)
Theorem blank_title_reverts_after_store_call w (newNoteTitle : string) :
  RenameNoteResult.operation (renameAnswer w newNoteTitle) = Blank ->
  exists w', saveNoteTitleAsync newNoteTitle w = Returned tt w'
    /\ noteTitle (this w') = originalNoteTitle (this w)
    /\ originalNoteTitle (this w') = originalNoteTitle (this w)
    /\ since w w' =
         [RenameNote (noteId (this w)) (originalNoteTitle (this w)) newNoteTitle;
          NoteTitleCannotBeEmpty]
    /\ count isSaveCall (since w w') = 1.
Proof.
  intros E. eexists. split; [apply saveNoteTitleAsync_spec|].
  rewrite E.
  erewrite since_app by reflexivity.
  repeat split; reflexivity.
Qed.

(** C5 (amended).  A per-channel timer that fires once the interceptor has
    entered [Flushing] saves as it always does: the save actions never read
    the dirty flags, so clearing them at the close signal cancels nothing.
    The title timer calls the store's rename operation with the held title,
    the content timer calls the store's content update with the editor's
    text and serialized contents; each makes that one store call and leaves
    the dirty flags as they were. *)
Theorem timers_still_save_while_flushing w :
  interceptorState w = Flushing ->
  (forall t, ripe (now w) (noteTitleChanged (subjects w)) = Some t ->
     exists rest,
       since w (step (Elapsed TitleChannel) w) =
         RenameNote (noteId (this w)) (originalNoteTitle (this w)) t :: rest
       /\ count isSaveCall rest = 0
       /\ isAnyDirty (this (step (Elapsed TitleChannel) w)) = isAnyDirty (this w))
  /\ (forall v, ripe (now w) (noteTextChanged (subjects w)) = Some v ->
     exists rest,
       since w (step (Elapsed TextChannel) w) =
         UpdateNoteContent (noteId (this w)) (getText (quill w))
           (JSON.stringify (getContents (quill w))) :: rest
       /\ count isSaveCall rest = 0
       /\ isAnyDirty (this (step (Elapsed TextChannel) w)) = isAnyDirty (this w)).
Proof.
  intros St.
  assert (Ho : windowOpen w = true)
    by (apply not_closed_open; rewrite St; discriminate).
  split.
  - intros t Held.
    rewrite (step_Elapsed_TitleChannel w Ho), Held, saveNoteTitleAsync_spec.
    unfold renameAnswer. cbn.
    destruct (RenameNoteResult.operation _);
      eexists; (split; [apply since_app; cbn; reflexivity|]);
      split; reflexivity.
  - intros v Held.
    rewrite (step_Elapsed_TextChannel w Ho), Held, saveNoteContentAsync_spec.
    unfold contentAnswer. cbn.
    destruct (fst _);
      eexists; (split; [apply since_app; cbn; reflexivity|]);
      split; reflexivity.
Qed.

(** C6 (amended).  On the two debounced save paths the store's answer is
    inspected: a title save and a content save each surface exactly one
    error when the store answers [Error], and none otherwise.  The flush-all
    of the close sequence makes its one store call and drops the answer: it
    surfaces nothing, whatever the store says.  None of the three paths
    throws. *)
Theorem failures_surfaced_by_debounced_saves_only w (newNoteTitle : string) :
  (exists w', saveNoteTitleAsync newNoteTitle w = Returned tt w'
     /\ count isErrorSurface (since w w') =
        if isError (RenameNoteResult.operation (renameAnswer w newNoteTitle))
        then 1 else 0)
  /\ (exists w', saveNoteContentAsync w = Returned tt w'
     /\ count isErrorSurface (since w w') =
        if isError (contentAnswer w) then 1 else 0)
  /\ (exists w', saveNoteAll w = Returned tt w'
     /\ since w w' =
          [UpdateNote (noteId (this w)) (noteTitle (this w)) (getText (quill w))
             (JSON.stringify (getContents (quill w)))]
     /\ count isErrorSurface (since w w') = 0).
Proof.
  split; [|split].
  - eexists. split; [apply saveNoteTitleAsync_spec|].
    destruct (RenameNoteResult.operation _);
      erewrite since_app by reflexivity; reflexivity.
  - eexists. split; [apply saveNoteContentAsync_spec|].
    destruct (contentAnswer w);
      erewrite since_app by reflexivity; reflexivity.
  - eexists. split; [apply saveNoteAll_spec|].
    erewrite since_app by reflexivity. split; reflexivity.
Qed.

(** C8.  When the store answers [Error] to the content update, the content
    save surfaces exactly one error, the dialog with the text of the
    content-update failure, and leaves the editor's content, and the
    component's fields, as they were: nothing is reverted. *)
Theorem content_failure_surfaced_once w :
  contentAnswer w = Error ->
  exists w', saveNoteContentAsync w = Returned tt w'
    /\ since w w' =
         [UpdateNoteContent (noteId (this w)) (getText (quill w))
            (JSON.stringify (getContents (quill w)));
          OpenErrorDialog (translate "ErrorTexts.UpdateNoteContentError" [])]
    /\ count isErrorSurface (since w w') = 1
    /\ quill w' = quill w
    /\ this w' = this w.
Proof.
  intros E. eexists. split; [apply saveNoteContentAsync_spec|].
  rewrite E. erewrite since_app by reflexivity.
  repeat split; reflexivity.
Qed.

(** C9 (amended).  A result of the store's rename operation that is none of
    [Success], [Blank] and [Error] is ignored, not treated as a failure: the
    title save changes no field of the component, so the local title is not
    reverted, and it surfaces no error; the rename call is all it did. *)
Theorem unlisted_rename_result_ignored w (newNoteTitle : string) (code : nat) :
  RenameNoteResult.operation (renameAnswer w newNoteTitle) = Unlisted code ->
  exists w', saveNoteTitleAsync newNoteTitle w = Returned tt w'
    /\ this w' = this w
    /\ since w w' =
         [RenameNote (noteId (this w)) (originalNoteTitle (this w)) newNoteTitle]
    /\ count isErrorSurface (since w w') = 0.
Proof.
  intros E. eexists. split; [apply saveNoteTitleAsync_spec|].
  rewrite E. erewrite since_app by reflexivity.
  repeat split; reflexivity.
Qed.

(** C10.  A title save whose outcome is [Blank] or [Error] leaves the
    last-known-good title, [originalNoteTitle], as it was: of the
    component's fields only the displayed title changes, back to the
    last-known-good title, and the editor is untouched.  The
    last-known-good title changes only on [Success], to the title the store
    accepted. *)
Theorem last_known_good_title_kept w (newNoteTitle : string) :
  exists w', saveNoteTitleAsync newNoteTitle w = Returned tt w'
    /\ quill w' = quill w
    /\ match RenameNoteResult.operation (renameAnswer w newNoteTitle) with
       | Blank | Error =>
           originalNoteTitle (this w') = originalNoteTitle (this w)
           /\ this w' = set_noteTitle (originalNoteTitle (this w)) (this w)
       | Success =>
           originalNoteTitle (this w') =
             RenameNoteResult.newNoteTitle (renameAnswer w newNoteTitle)
       | Unlisted _ => this w' = this w
       end
    /\ (originalNoteTitle (this w') <> originalNoteTitle (this w) ->
        RenameNoteResult.operation (renameAnswer w newNoteTitle) = Success).
Proof.
  eexists. split; [apply saveNoteTitleAsync_spec|].
  destruct (RenameNoteResult.operation _); cbn;
    repeat split; try reflexivity; intros D; now elim D.
Qed.

(** ** Further properties of the handlers *)

Ltac since_is :=
  erewrite since_app by (cbn; rewrite <- ?app_assoc; reflexivity).

Lemma step_NotetitleChange w (newNoteTitle : string) :
  windowOpen w = true ->
  step (NotetitleChange newNoteTitle) w =
  with_subjects
    {| noteTitleChanged :=
         Some {| due := now w + saveTimeoutMilliseconds; value := newNoteTitle |};
       noteTextChanged := noteTextChanged (subjects w);
       saveChangedAndCloseNoteWindow := saveChangedAndCloseNoteWindow (subjects w) |}
    (with_this (set_changed true (isContentChanged (this w)) (this w)) w).
Proof.
  intros Ho. unfold step. rewrite Ho. reflexivity.
Qed.

Lemma step_TextChange w (edited : Q) :
  windowOpen w = true ->
  step (TextChange edited) w =
  with_subjects
    {| noteTitleChanged := noteTitleChanged (subjects w);
       noteTextChanged :=
         Some {| due := now w + saveTimeoutMilliseconds; value := "" |};
       saveChangedAndCloseNoteWindow := saveChangedAndCloseNoteWindow (subjects w) |}
    (with_this (set_changed (isTitleChanged (this w)) true (this w))
       (with_quill edited w)).
Proof.
  intros Ho. unfold step. rewrite Ho. reflexivity.
Qed.

Lemma step_QueryParams w (id : string) :
  windowOpen w = true ->
  step (QueryParams id) w =
  match getNoteContentAsync (routedTo id w) with
  | Returned _ w' => w'
  | Thrown e w' => with_trace (trace w' ++ [Uncaught e]) w'
  end.
Proof.
  intros Ho. unfold step. rewrite Ho.
  cbv [deliver onQueryParams collectionService_getNote
       collectionService_setNoteIsOpen bind gets modify emit update_this routedTo].
  cbn [this subjects quill collectionService windowOpen closeIssued trace now
       with_this with_subjects with_quill with_collectionService with_window
       with_trace].
  rewrite <- app_assoc. reflexivity.
Qed.

(** The close sequence in full. *)
Lemma onSaveChangedAndCloseNoteWindow_spec w (v : string) :
  onSaveChangedAndCloseNoteWindow v w =
  Returned tt
    (with_window (windowOpen w) true
       (with_collectionService
          (snd (updateNote
                  (setNoteIsOpen (collectionService w) (noteId (this w)) false)
                  (noteId (this w)) (noteTitle (this w))
                  (getText (quill w)) (JSON.stringify (getContents (quill w)))))
          (with_trace
             (trace w ++
                [SetNoteIsOpen (noteId (this w)) false;
                 UpdateNote (noteId (this w)) (noteTitle (this w))
                   (getText (quill w)) (JSON.stringify (getContents (quill w)));
                 WindowClose])
             w))).
Proof.
  handler. rewrite <- !app_assoc. reflexivity.
Qed.

(** X1.  A close signal on an open window with nothing changed is let
    through: the store is told once that the note is no longer open, the
    window closes, and no flush, no close request and no other change is
    made. *)
Theorem clean_close_goes_straight_through w :
  windowOpen w = true ->
  isAnyDirty (this w) = false ->
  interceptorState (step BeforeUnload w) = Closed
  /\ since w (step BeforeUnload w) = [SetNoteIsOpen (noteId (this w)) false]
  /\ count isSaveCall (since w (step BeforeUnload w)) = 0
  /\ this (step BeforeUnload w) = this w
  /\ subjects (step BeforeUnload w) = subjects w
  /\ quill (step BeforeUnload w) = quill w.
Proof.
  intros Ho Hc. rewrite (step_BeforeUnload w Ho), Hc.
  since_is. repeat split; reflexivity.
Qed.

(** X2.  Only a close signal closes the window, and only when nothing is
    flagged as changed; the last thing the component does before its window
    goes is to tell the store that the note is no longer open. *)
Theorem window_closes_only_on_clean_close_signal w (i : Input) :
  windowOpen w = true ->
  windowOpen (step i w) = false ->
  i = BeforeUnload
  /\ isAnyDirty (this w) = false
  /\ since w (step i w) = [SetNoteIsOpen (noteId (this w)) false].
Proof.
  intros Ho Hc.
  destruct i as [id|t|q| |[]|ms].
  - rewrite (step_QueryParams w id Ho), getNoteContentAsync_spec in Hc.
    destruct (GetNoteContentResult.operation _);
      try destruct (GetNoteContentResult.noteContent _) as [[|a c]|];
      try destruct (JSON.parse _);
      unfold routedTo in Hc; cbn in Hc; congruence.
  - rewrite (step_NotetitleChange w t Ho) in Hc. cbn in Hc. congruence.
  - rewrite (step_TextChange w q Ho) in Hc. cbn in Hc. congruence.
  - rewrite (step_BeforeUnload w Ho) in *.
    destruct (isAnyDirty (this w)); [discriminate Hc|].
    since_is. repeat split; reflexivity.
  - rewrite (step_Elapsed_TitleChannel w Ho) in Hc.
    destruct (ripe _ _); [|congruence].
    rewrite saveNoteTitleAsync_spec in Hc.
    destruct (RenameNoteResult.operation _); cbn in Hc; congruence.
  - rewrite (step_Elapsed_TextChannel w Ho) in Hc.
    destruct (ripe _ _); [|congruence].
    rewrite saveNoteContentAsync_spec in Hc.
    destruct (contentAnswer _); cbn in Hc; congruence.
  - rewrite (step_Elapsed_CloseChannel w Ho) in Hc.
    destruct (ripe _ _); [|congruence].
    rewrite onSaveChangedAndCloseNoteWindow_spec in Hc. cbn in Hc. congruence.
  - rewrite (step_Tick w ms Ho) in Hc. cbn in Hc. congruence.
Qed.

Lemma step_closed w (i : Input) : windowOpen w = false -> step i w = w.
Proof.
  intros Hc. unfold step. now rewrite Hc.
Qed.

(** Every turn of an open window, input by input and answer by answer. *)
Ltac every_turn w i Ho :=
  destruct i as [id|t|q| |[]|ms];
  [ rewrite (step_QueryParams w id Ho), getNoteContentAsync_spec;
    destruct (GetNoteContentResult.operation _);
    try destruct (GetNoteContentResult.noteContent _) as [[|a c]|];
    try destruct (JSON.parse _);
    unfold routedTo
  | rewrite (step_NotetitleChange w t Ho)
  | rewrite (step_TextChange w q Ho)
  | rewrite (step_BeforeUnload w Ho); destruct (isAnyDirty (this w)) eqn:Hd
  | rewrite (step_Elapsed_TitleChannel w Ho);
    destruct (ripe _ _);
    [ rewrite saveNoteTitleAsync_spec;
      destruct (RenameNoteResult.operation _) | ]
  | rewrite (step_Elapsed_TextChannel w Ho);
    destruct (ripe _ _);
    [ rewrite saveNoteContentAsync_spec; destruct (contentAnswer _) | ]
  | rewrite (step_Elapsed_CloseChannel w Ho);
    destruct (ripe _ _);
    [ rewrite onSaveChangedAndCloseNoteWindow_spec | ]
  | rewrite (step_Tick w ms Ho) ].

(** X3.  How the two dirty flags move.  A title edit sets the title flag and
    leaves the content flag; a text edit sets the content flag and leaves the
    title flag; a close signal leaves both clear; and nothing else, neither
    the load of the note, nor a save, nor the close sequence, nor the passing
    of time, changes either flag. *)
Theorem dirty_flags_move_only_by_edit_and_close_signal w (i : Input) :
  windowOpen w = true ->
  match i with
  | NotetitleChange _ =>
      isTitleChanged (this (step i w)) = true
      /\ isContentChanged (this (step i w)) = isContentChanged (this w)
  | TextChange _ =>
      isContentChanged (this (step i w)) = true
      /\ isTitleChanged (this (step i w)) = isTitleChanged (this w)
  | BeforeUnload =>
      isTitleChanged (this (step i w)) = false
      /\ isContentChanged (this (step i w)) = false
  | _ =>
      isTitleChanged (this (step i w)) = isTitleChanged (this w)
      /\ isContentChanged (this (step i w)) = isContentChanged (this w)
  end.
Proof.
  intros Ho.
  every_turn w i Ho; cbn; try (split; reflexivity).
  now apply orb_false_elim.
Qed.

(** X4.  What a debounced subject holds is touched only by its own events:
    the title subject by a title edit and by its own timer, the text subject
    by a text edit and by its own timer, the close subject by a close signal
    and by its own timer.  In particular an edit on one channel never resets
    the quiet period of the other, and a close signal cancels no pending
    save. *)
Theorem a_subject_is_touched_only_by_its_own_events w (i : Input) :
  match i with
  | NotetitleChange _ | Elapsed TitleChannel => True
  | _ => noteTitleChanged (subjects (step i w)) = noteTitleChanged (subjects w)
  end
  /\ match i with
     | TextChange _ | Elapsed TextChannel => True
     | _ => noteTextChanged (subjects (step i w)) = noteTextChanged (subjects w)
     end
  /\ match i with
     | BeforeUnload | Elapsed CloseChannel => True
     | _ => saveChangedAndCloseNoteWindow (subjects (step i w)) =
            saveChangedAndCloseNoteWindow (subjects w)
     end.
Proof.
  destruct (windowOpen w) eqn:Ho.
  - every_turn w i Ho; cbn; repeat split; reflexivity.
  - rewrite (step_closed w i Ho). destruct i as [| | | |[]|]; repeat split.
Qed.

Lemma last_cons_default {A : Type} (a d : A) (l : list A) :
  last (a :: l) d = last l a.
Proof.
  revert a d. induction l as [|b l IH]; intros a d; [reflexivity|].
  change (last (a :: b :: l) d) with (last (b :: l) d).
  now rewrite (IH b d), (IH b a).
Qed.

Lemma run_cons w (i : Input) (inputs : list Input) :
  run (i :: inputs) w = run inputs (step i w).
Proof. reflexivity. Qed.

Lemma not_yet_ripe (t g : N) (v : string) :
  (g < saveTimeoutMilliseconds)%N ->
  ripe (t + g) (Some {| due := t + saveTimeoutMilliseconds; value := v |}) = None.
Proof.
  intros Hg. rewrite ripe_after.
  destruct (N.leb_spec saveTimeoutMilliseconds g); [lia | reflexivity].
Qed.

Lemma titleBurst_cons (g : N) (t : string) (rest : list (N * string)) :
  titleBurst ((g, t) :: rest) =
  (Tick g :: Elapsed TitleChannel :: NotetitleChange t :: titleBurst rest
   : list (@Input Q)).
Proof. reflexivity. Qed.

Lemma textBurst_cons (g : N) (q : Q) (rest : list (N * Q)) :
  textBurst ((g, q) :: rest) =
  Tick g :: Elapsed TextChannel :: TextChange q :: textBurst rest.
Proof. reflexivity. Qed.

(** Where a burst of title edits leaves the component: one title held, the
    last, its quiet period counted from the last edit. *)
Lemma titleBurst_world (edits : list (N * string)) : forall w (t0 : string),
  windowOpen w = true ->
  Forall (fun e => (fst e < saveTimeoutMilliseconds)%N) edits ->
  exists n,
    run (NotetitleChange t0 :: titleBurst edits) w =
    with_now n
      (with_subjects
         {| noteTitleChanged :=
              Some {| due := n + saveTimeoutMilliseconds;
                      value := last (map snd edits) t0 |};
            noteTextChanged := noteTextChanged (subjects w);
            saveChangedAndCloseNoteWindow :=
              saveChangedAndCloseNoteWindow (subjects w) |}
         (with_this (set_changed true (isContentChanged (this w)) (this w)) w)).
Proof.
  induction edits as [|[g t] rest IH]; intros w t0 Ho Hall.
  - exists (now w). cbn [titleBurst flat_map].
    rewrite run_cons, (step_NotetitleChange w t0 Ho). reflexivity.
  - inversion Hall as [|e l Hg Hrest]; subst. cbn [fst] in Hg.
    rewrite titleBurst_cons.
    rewrite !run_cons, (step_NotetitleChange w t0 Ho).
    rewrite step_Tick by exact Ho.
    rewrite step_Elapsed_TitleChannel by exact Ho.
    cbn [now subjects with_now with_subjects with_this noteTitleChanged].
    rewrite (not_yet_ripe (now w) g t0 Hg).
    rewrite <- run_cons.
    match goal with
    | |- context [run _ ?w'] => destruct (IH w' t Ho Hrest) as [n E]
    end.
    exists n. rewrite E. cbn [map snd]. rewrite last_cons_default. reflexivity.
Qed.

(** X6.  A burst of title edits, each less than the quiet period after the
    one before, reaches the store once: while the burst lasts the timer finds
    nothing to save, and when the quiet period after the last edit is over
    the title save runs with the last title typed, renaming from the
    last-known-good title.  The timer then has nothing more to hand on. *)
Theorem title_burst_saves_once_with_the_last_title
    w (t0 : string) (edits : list (N * string)) (ms : N) :
  windowOpen w = true ->
  Forall (fun e => (fst e < saveTimeoutMilliseconds)%N) edits ->
  (saveTimeoutMilliseconds <= ms)%N ->
  let w1 := run (NotetitleChange t0 :: titleBurst edits) w in
  let w2 := run [Tick ms; Elapsed TitleChannel] w1 in
  since w w1 = []
  /\ (exists rest,
        since w w2 =
          RenameNote (noteId (this w)) (originalNoteTitle (this w))
            (last (map snd edits) t0) :: rest
        /\ count isSaveCall rest = 0)
  /\ step (Elapsed TitleChannel) w2 = w2.
Proof.
  intros Ho Hall Hms. cbv zeta.
  destruct (titleBurst_world edits w t0 Ho Hall) as [n E]. rewrite E.
  split; [now rewrite since_refl|].
  rewrite !run_cons. cbn [run fold_left].
  rewrite step_Tick by exact Ho.
  rewrite step_Elapsed_TitleChannel by exact Ho.
  cbn [now subjects with_now with_subjects with_this noteTitleChanged].
  rewrite ripe_after.
  destruct (N.leb_spec saveTimeoutMilliseconds ms); [|lia].
  rewrite saveNoteTitleAsync_spec. unfold renameAnswer.
  cbn [this subjects quill collectionService windowOpen closeIssued trace now
       with_this with_subjects with_quill with_collectionService with_window
       with_now with_trace noteId originalNoteTitle set_changed].
  destruct (RenameNoteResult.operation _);
    (split;
     [ eexists; split; [apply since_app; cbn; reflexivity | reflexivity]
     | rewrite step_Elapsed_TitleChannel by exact Ho; reflexivity ]).
Qed.

Lemma textBurst_world (edits : list (N * Q)) : forall w (q0 : Q),
  windowOpen w = true ->
  Forall (fun e => (fst e < saveTimeoutMilliseconds)%N) edits ->
  exists n,
    run (TextChange q0 :: textBurst edits) w =
    with_now n
      (with_subjects
         {| noteTitleChanged := noteTitleChanged (subjects w);
            noteTextChanged :=
              Some {| due := n + saveTimeoutMilliseconds; value := "" |};
            saveChangedAndCloseNoteWindow :=
              saveChangedAndCloseNoteWindow (subjects w) |}
         (with_this (set_changed (isTitleChanged (this w)) true (this w))
            (with_quill (last (map snd edits) q0) w))).
Proof.
  induction edits as [|[g q] rest IH]; intros w q0 Ho Hall.
  - exists (now w). cbn [textBurst flat_map].
    rewrite run_cons, (step_TextChange w q0 Ho). reflexivity.
  - inversion Hall as [|e l Hg Hrest]; subst. cbn [fst] in Hg.
    rewrite textBurst_cons.
    rewrite !run_cons, (step_TextChange w q0 Ho).
    rewrite step_Tick by exact Ho.
    rewrite step_Elapsed_TextChannel by exact Ho.
    cbn [now subjects with_now with_subjects with_this with_quill noteTextChanged].
    rewrite (not_yet_ripe (now w) g "" Hg).
    rewrite <- run_cons.
    match goal with
    | |- context [run _ ?w'] => destruct (IH w' q Ho Hrest) as [n E]
    end.
    exists n. rewrite E. cbn [map snd]. rewrite last_cons_default. reflexivity.
Qed.

(** X7.  A burst of text edits, each less than the quiet period after the one
    before, reaches the store once: nothing is saved while the burst lasts,
    and when the quiet period after the last edit is over the content save
    sends the text and the serialized contents the editor holds then, those
    of the last edit.  The states in between are never sent. *)
Theorem text_burst_saves_once_with_the_last_content
    w (q0 : Q) (edits : list (N * Q)) (ms : N) :
  windowOpen w = true ->
  Forall (fun e => (fst e < saveTimeoutMilliseconds)%N) edits ->
  (saveTimeoutMilliseconds <= ms)%N ->
  let w1 := run (TextChange q0 :: textBurst edits) w in
  let w2 := run [Tick ms; Elapsed TextChannel] w1 in
  since w w1 = []
  /\ (exists rest,
        since w w2 =
          UpdateNoteContent (noteId (this w))
            (getText (last (map snd edits) q0))
            (JSON.stringify (getContents (last (map snd edits) q0))) :: rest
        /\ count isSaveCall rest = 0)
  /\ step (Elapsed TextChannel) w2 = w2.
Proof.
  intros Ho Hall Hms. cbv zeta.
  destruct (textBurst_world edits w q0 Ho Hall) as [n E]. rewrite E.
  split; [now rewrite since_refl|].
  rewrite !run_cons. cbn [run fold_left].
  rewrite step_Tick by exact Ho.
  rewrite step_Elapsed_TextChannel by exact Ho.
  cbn [now subjects with_now with_subjects with_this with_quill noteTextChanged].
  rewrite ripe_after.
  destruct (N.leb_spec saveTimeoutMilliseconds ms); [|lia].
  rewrite saveNoteContentAsync_spec. unfold contentAnswer.
  cbn [this subjects quill collectionService windowOpen closeIssued trace now
       with_this with_subjects with_quill with_collectionService with_window
       with_now with_trace noteId set_changed].
  destruct (fst _);
    (split;
     [ eexists; split; [apply since_app; cbn; reflexivity | reflexivity]
     | rewrite step_Elapsed_TextChannel by exact Ho; reflexivity ]).
Qed.

(** X8.  When the store answers the load of the content with [Error], the
    load surfaces exactly one error, the dialog with the text of the load
    failure, and returns; it does not look at the content the answer carries,
    and it leaves the editor, the fields and the subjects as they were. *)
Theorem load_failure_surfaced_once w :
  GetNoteContentResult.operation (loadAnswer w) = Error ->
  exists w', getNoteContentAsync w = Returned tt w'
    /\ since w w' =
         [GetNoteContent (noteId (this w));
          OpenErrorDialog (translate "ErrorTexts.GetNoteContentError" [])]
    /\ quill w' = quill w
    /\ this w' = this w
    /\ subjects w' = subjects w.
Proof.
  unfold loadAnswer. intros E. eexists.
  split; [rewrite getNoteContentAsync_spec, E; reflexivity|].
  since_is. repeat split; reflexivity.
Qed.

(** X9.  When the store answers the load with anything but [Error] and with
    no content, or with the empty string, the load is quiet: nothing is
    parsed, nothing is surfaced, nothing is thrown, and the editor keeps its
    placeholder. *)
Theorem load_without_content_is_quiet w :
  GetNoteContentResult.operation (loadAnswer w) <> Error ->
  GetNoteContentResult.noteContent (loadAnswer w) = None
  \/ GetNoteContentResult.noteContent (loadAnswer w) = Some "" ->
  exists w', getNoteContentAsync w = Returned tt w'
    /\ since w w' = [GetNoteContent (noteId (this w))]
    /\ quill w' = quill w
    /\ this w' = this w
    /\ subjects w' = subjects w.
Proof.
  unfold loadAnswer. intros Hop Hc. rewrite getNoteContentAsync_spec.
  destruct (GetNoteContentResult.operation _); try congruence;
    destruct Hc as [Hc|Hc]; rewrite Hc;
    (eexists; split; [reflexivity|]; since_is; repeat split; reflexivity).
Qed.

(** X10.  When the store answers the load with anything but [Error] and with
    content that parses, the editor takes the parsed contents, silently: no
    flag is set, no save is scheduled, nothing is surfaced and the store is
    not written. *)
Theorem load_fills_the_editor_silently w (a : ascii) (content : string) (delta : json) :
  GetNoteContentResult.operation (loadAnswer w) <> Error ->
  GetNoteContentResult.noteContent (loadAnswer w) = Some (String a content) ->
  JSON.parse (String a content) = Some delta ->
  exists w', getNoteContentAsync w = Returned tt w'
    /\ quill w' = setContents (quill w) delta
    /\ since w w' = [GetNoteContent (noteId (this w))]
    /\ this w' = this w
    /\ subjects w' = subjects w.
Proof.
  unfold loadAnswer. intros Hop Hc Hp. rewrite getNoteContentAsync_spec.
  destruct (GetNoteContentResult.operation _); try congruence;
    rewrite Hc, Hp;
    (eexists; split; [reflexivity|]; since_is; repeat split; reflexivity).
Qed.

(** X11.  The load throws in one case only: the store answers with anything
    but [Error] and with content that is not empty and does not parse.  The
    exception is then the [SyntaxError] of that content. *)
Theorem load_throws_only_on_unparsable_content w (e : Exception) (w' : World S Q) :
  getNoteContentAsync w = Thrown e w' ->
  GetNoteContentResult.operation (loadAnswer w) <> Error
  /\ exists a content,
       GetNoteContentResult.noteContent (loadAnswer w) = Some (String a content)
       /\ JSON.parse (String a content) = None
       /\ e = SyntaxError (String a content).
Proof.
  unfold loadAnswer. rewrite getNoteContentAsync_spec.
  destruct (GetNoteContentResult.operation _);
    try (intros T; discriminate T);
    destruct (GetNoteContentResult.noteContent _) as [[|a content]|];
    try (intros T; discriminate T);
    destruct (JSON.parse _) eqn:Hp;
    try (intros T; discriminate T);
    intros T; injection T as <- _;
    (split; [discriminate | eauto]).
Qed.

(** X12.  When the route names a note the component takes the note of that
    name from the store, tells the store that it is open, and only then asks
    for its content.  Whatever becomes of the content, the component is left
    with the identifier of the note, with its title as last-known-good title
    and as displayed title, and with its window open. *)
Theorem route_opens_the_note w (id : string) :
  windowOpen w = true ->
  exists rest,
    since w (step (QueryParams id) w) =
      GetNote id
      :: SetNoteIsOpen (Note.id (getNote (collectionService w) id)) true
      :: GetNoteContent (Note.id (getNote (collectionService w) id))
      :: rest
    /\ count isSaveCall rest = 0
    /\ noteId (this (step (QueryParams id) w)) =
       Note.id (getNote (collectionService w) id)
    /\ originalNoteTitle (this (step (QueryParams id) w)) =
       Note.title (getNote (collectionService w) id)
    /\ noteTitle (this (step (QueryParams id) w)) =
       Note.title (getNote (collectionService w) id)
    /\ windowOpen (step (QueryParams id) w) = true.
Proof.
  intros Ho.
  rewrite (step_QueryParams w id Ho), getNoteContentAsync_spec.
  destruct (GetNoteContentResult.operation _);
    try destruct (GetNoteContentResult.noteContent _) as [[|a c]|];
    try destruct (JSON.parse _);
    unfold routedTo;
    (eexists; split;
     [ apply since_app; cbn; rewrite <- ?app_assoc; reflexivity
     | repeat split; try reflexivity; exact Ho ]).
Qed.

(** X13.  After a title save that the store answered with [Success], [Blank]
    or [Error], the displayed title is the last-known-good title; on
    [Success] both are the title the store accepted, which need not be the
    title that was proposed. *)
Theorem title_box_shows_the_last_known_good_title w (newNoteTitle : string) :
  (forall code, RenameNoteResult.operation (renameAnswer w newNoteTitle)
                <> Unlisted code) ->
  exists w', saveNoteTitleAsync newNoteTitle w = Returned tt w'
    /\ noteTitle (this w') = originalNoteTitle (this w')
    /\ (RenameNoteResult.operation (renameAnswer w newNoteTitle) = Success ->
        noteTitle (this w') =
          RenameNoteResult.newNoteTitle (renameAnswer w newNoteTitle)).
Proof.
  intros Hop. eexists. split; [apply saveNoteTitleAsync_spec|].
  destruct (RenameNoteResult.operation _) eqn:E;
    try (split; [reflexivity | intros D; first [reflexivity | discriminate D]]).
  now elim (Hop code).
Qed.

(** X14.  Title saves chain: the old title a title save hands to the store
    is the title the store accepted in the save before, when that one
    succeeded, and the old title of the save before otherwise.  The store
    the second save asks is the store as the first left it. *)
Theorem next_rename_starts_from_the_accepted_title w (first second : string) :
  exists w1 w2,
    saveNoteTitleAsync first w = Returned tt w1
    /\ saveNoteTitleAsync second w1 = Returned tt w2
    /\ collectionService w1 =
       snd (renameNote (collectionService w) (noteId (this w))
              (originalNoteTitle (this w)) first)
    /\ exists rest,
         since w1 w2 =
           RenameNote (noteId (this w))
             match RenameNoteResult.operation (renameAnswer w first) with
             | Success => RenameNoteResult.newNoteTitle (renameAnswer w first)
             | _ => originalNoteTitle (this w)
             end
             second :: rest
         /\ count isSaveCall rest = 0.
Proof.
  eexists. eexists.
  split; [apply saveNoteTitleAsync_spec|].
  split; [apply saveNoteTitleAsync_spec|].
  unfold renameAnswer.
  destruct (RenameNoteResult.operation
              (fst (renameNote (collectionService w) (noteId (this w))
                      (originalNoteTitle (this w)) first)));
    cbn [this collectionService with_this with_collectionService with_trace
         noteId originalNoteTitle set_noteTitle set_originalNoteTitle];
    (split; [reflexivity|]);
    match goal with
    | |- context [RenameNoteResult.operation ?r] =>
        destruct (RenameNoteResult.operation r)
    end;
    (eexists; split; [apply since_app; cbn; reflexivity | reflexivity]).
Qed.

Lemma run_closed (inputs : list Input) : forall w,
  windowOpen w = false -> run inputs w = w.
Proof.
  induction inputs as [|i inputs IH]; intros w Hc; [reflexivity|].
  rewrite run_cons, (step_closed w i Hc). now apply IH.
Qed.

(** X15.  A close with something changed, from the signal to the end: the
    signal is held back, and once the grace delay has passed the close
    sequence runs and the close it issues goes through.  The store is told
    twice that the note is no longer open, before the flush and again as the
    window goes; the whole note is written once; and nothing that reaches
    the closed window afterwards, a pending save timer included, does
    anything. *)
Theorem dirty_close_runs_to_the_end w (ms : N) :
  windowOpen w = true ->
  isAnyDirty (this w) = true ->
  (windowCloseTimeoutMilliseconds <= ms)%N ->
  let w' := run [BeforeUnload; Tick ms; Elapsed CloseChannel; BeforeUnload] w in
  interceptorState w' = Closed
  /\ since w w' =
       [SetNoteIsOpen (noteId (this w)) false;
        UpdateNote (noteId (this w)) (noteTitle (this w)) (getText (quill w))
          (JSON.stringify (getContents (quill w)));
        WindowClose;
        SetNoteIsOpen (noteId (this w)) false]
  /\ count isFlush (since w w') = 1
  /\ forall inputs : list Input, run inputs w' = w'.
Proof.
  intros Ho Hd Hms. cbv zeta. rewrite !run_cons. cbn [run fold_left].
  rewrite (step_BeforeUnload w Ho), Hd.
  rewrite step_Tick by (cbn; first [reflexivity | assumption]).
  rewrite step_Elapsed_CloseChannel by (cbn; first [reflexivity | assumption]).
  cbn [now subjects with_now with_window with_subjects with_this
       saveChangedAndCloseNoteWindow].
  rewrite ripe_after.
  destruct (N.leb_spec windowCloseTimeoutMilliseconds ms); [|lia].
  rewrite onSaveChangedAndCloseNoteWindow_spec.
  rewrite step_BeforeUnload by (cbn; first [reflexivity | assumption]).
  cbn [this with_window with_collectionService with_trace with_now with_subjects
       with_this isAnyDirty set_changed isTitleChanged isContentChanged orb].
  since_is.
  repeat split; try reflexivity.
  intros inputs. now apply run_closed.
Qed.

(** X16.  An edit made while a close is held back is not lost.  The flush of
    the close sequence writes the editor as the edit left it, and the close
    the sequence issues is held back in its turn, because the edit has set a
    flag again: the window stays open, the flags are cleared and a new close
    request waits for its own grace delay.  By then the store has already been
    told that the note is no longer open. *)
Theorem edit_during_the_grace_delay_holds_the_close_back_again w (edited : Q) (ms : N) :
  windowOpen w = true ->
  isAnyDirty (this w) = true ->
  (windowCloseTimeoutMilliseconds <= ms)%N ->
  let w1 := run [BeforeUnload; TextChange edited; Tick ms; Elapsed CloseChannel] w in
  let w2 := step BeforeUnload w1 in
  since w w1 =
    [SetNoteIsOpen (noteId (this w)) false;
     UpdateNote (noteId (this w)) (noteTitle (this w)) (getText edited)
       (JSON.stringify (getContents edited));
     WindowClose]
  /\ interceptorState w1 = Flushing
  /\ since w1 w2 = []
  /\ interceptorState w2 = InterceptedDirty
  /\ isAnyDirty (this w2) = false
  /\ saveChangedAndCloseNoteWindow (subjects w2) =
       Some {| due := now w + ms + windowCloseTimeoutMilliseconds; value := "" |}.
Proof.
  intros Ho Hd Hms. cbv zeta. rewrite !run_cons. cbn [run fold_left].
  rewrite (step_BeforeUnload w Ho), Hd.
  rewrite step_TextChange by (cbn; first [reflexivity | assumption]).
  rewrite step_Tick by (cbn; first [reflexivity | assumption]).
  rewrite step_Elapsed_CloseChannel by (cbn; first [reflexivity | assumption]).
  cbn [now subjects with_now with_window with_subjects with_this with_quill
       saveChangedAndCloseNoteWindow].
  rewrite ripe_after.
  destruct (N.leb_spec windowCloseTimeoutMilliseconds ms); [|lia].
  rewrite onSaveChangedAndCloseNoteWindow_spec.
  rewrite step_BeforeUnload by (cbn; first [reflexivity | assumption]).
  cbn [this with_window with_collectionService with_trace with_now with_subjects
       with_this with_quill isAnyDirty set_changed isTitleChanged
       isContentChanged orb].
  since_is. rewrite since_refl by reflexivity.
  repeat split; reflexivity.
Qed.

(** X17.  What the flush-all writes for a title after a title save is the
    displayed title as that save left it: the last-known-good title when the
    store answered [Blank] or [Error], the title the store accepted on
    [Success], and the title box as it stood when the answer was none of the
    three.  The flush asks no rename of the store. *)
Theorem flush_after_title_save_writes_the_displayed_title w (newNoteTitle : string) :
  exists w1 w2,
    saveNoteTitleAsync newNoteTitle w = Returned tt w1
    /\ saveNoteAll w1 = Returned tt w2
    /\ since w1 w2 =
         [UpdateNote (noteId (this w))
            match RenameNoteResult.operation (renameAnswer w newNoteTitle) with
            | Blank | Error => originalNoteTitle (this w)
            | Success => RenameNoteResult.newNoteTitle (renameAnswer w newNoteTitle)
            | Unlisted _ => noteTitle (this w)
            end
            (getText (quill w)) (JSON.stringify (getContents (quill w)))].
Proof.
  eexists. eexists.
  split; [apply saveNoteTitleAsync_spec|].
  split; [apply saveNoteAll_spec|].
  destruct (RenameNoteResult.operation _); since_is; reflexivity.
Qed.

Lemma count_app (p : Event -> bool) (a b : list Event) :
  count p (a ++ b) = count p a + count p b.
Proof.
  unfold count. now rewrite filter_app, length_app.
Qed.

(** X5.  Every change the component makes to the store, turn by turn.  Title
    and content are saved only when a timer fires, at most once in a turn
    and by the operation of that timer alone: the title timer renames, the
    text timer updates the content, the close timer updates the whole note;
    an edit, a close signal, the load of the note and the passing of time
    save nothing.  The one other change is the open mark: [setNoteIsOpen] is
    called once by the load, once by a close signal that finds nothing
    changed, once by the close sequence beside its update, and in no other
    turn. *)
Theorem every_change_to_the_store_accounted_for w (i : Input) :
  count isSaveCall (since w (step i w)) <= 1
  /\ match i with
     | Elapsed TitleChannel =>
         count isSaveCall (since w (step i w)) = count isRename (since w (step i w))
     | Elapsed TextChannel =>
         count isSaveCall (since w (step i w)) =
         count isContentUpdate (since w (step i w))
     | Elapsed CloseChannel =>
         count isSaveCall (since w (step i w)) = count isFlush (since w (step i w))
     | _ => count isSaveCall (since w (step i w)) = 0
     end
  /\ count isOpenMark (since w (step i w)) =
     if windowOpen w then
       match i with
       | QueryParams _ => 1
       | BeforeUnload => if isAnyDirty (this w) then 0 else 1
       | Elapsed CloseChannel =>
           match ripe (now w) (saveChangedAndCloseNoteWindow (subjects w)) with
           | Some _ => 1
           | None => 0
           end
       | _ => 0
       end
     else 0.
Proof.
  destruct (windowOpen w) eqn:Ho.
  - every_turn w i Ho;
      first [ rewrite since_refl by reflexivity | since_is ];
      cbn; repeat split; auto.
  - rewrite (step_closed w i Ho), since_refl by reflexivity.
    destruct i as [| | | |[]|]; cbn; repeat split; auto.
Qed.

(** A close is never issued before a flush: in every turn, if [window.close()]
    is pending after it, the whole note has been written. *)
Lemma close_issued_after_flush_step w (i : Input) :
  (closeIssued w = true -> 1 <= count isFlush (trace w)) ->
  closeIssued (step i w) = true ->
  1 <= count isFlush (trace (step i w)).
Proof.
  destruct (windowOpen w) eqn:Ho; [|now rewrite (step_closed w i Ho)].
  every_turn w i Ho;
    cbn [trace closeIssued with_this with_subjects with_quill
         with_collectionService with_window with_now with_trace];
    intros I C; try discriminate C; try specialize (I C);
    rewrite ?count_app; cbn [count filter isFlush length]; lia.
Qed.

Lemma close_issued_after_flush_run (inputs : list Input) : forall w,
  (closeIssued w = true -> 1 <= count isFlush (trace w)) ->
  closeIssued (run inputs w) = true ->
  1 <= count isFlush (trace (run inputs w)).
Proof.
  induction inputs as [|i inputs IH]; intros w I; [exact I|].
  rewrite run_cons. apply IH. now apply close_issued_after_flush_step.
Qed.

Lemma flushing_close_issued w :
  interceptorState w = Flushing -> closeIssued w = true.
Proof.
  unfold interceptorState.
  destruct (windowOpen w), (closeIssued w); cbn; try discriminate; auto.
  destruct (saveChangedAndCloseNoteWindow _); discriminate.
Qed.

(** C4 (amended).  A close signal received in [Flushing] is not a no-op: it
    is the answer of the window to the close the close sequence has issued,
    and the listener lets it through when both flags are clear, telling the
    store that the note is no longer open; the window closes, the subjects
    untouched.  In every run of the component the interceptor is in
    [Flushing] only after the flush-all has been made.  A close signal
    received in [InterceptedDirty] or in [Flushing] while a flag is set
    again by an edit is suppressed: both flags are cleared and the close
    subject holds one request, its grace delay started afresh.  In both
    cases the signal itself runs no flush and issues no close, the close
    subject never holds more than the one request, and nothing leaves the
    [Closed] state.  (A signal in [InterceptedDirty] with both flags clear
    is not covered.) *)
Theorem close_signal_while_closing w :
  interceptorState w = Flushing
  \/ (interceptorState w = InterceptedDirty /\ isAnyDirty (this w) = true) ->
  let w' := step BeforeUnload w in
  (if isAnyDirty (this w) then
     interceptorState w' = InterceptedDirty
     /\ isAnyDirty (this w') = false
     /\ saveChangedAndCloseNoteWindow (subjects w') =
          Some {| due := now w + windowCloseTimeoutMilliseconds; value := "" |}
     /\ since w w' = []
   else
     interceptorState w = Flushing
     /\ interceptorState w' = Closed
     /\ subjects w' = subjects w
     /\ since w w' = [SetNoteIsOpen (noteId (this w)) false])
  /\ count isFlush (since w w') = 0
  /\ count isWindowClose (since w w') = 0
  /\ (forall (v : World S Q) (i : Input),
        interceptorState v = Closed -> interceptorState (step i v) = Closed)
  /\ (forall (store : S) (editor : Q) (inputs : list Input),
        interceptorState (run inputs (ngOnInit store editor)) = Flushing ->
        1 <= count isFlush (trace (run inputs (ngOnInit store editor)))).
Proof.
  intros St.
  assert (Ho : windowOpen w = true)
    by (apply not_closed_open; destruct St as [E|[E _]]; rewrite E; discriminate).
  assert (Reached : forall (store : S) (editor : Q) (inputs : list Input),
             interceptorState (run inputs (ngOnInit store editor)) = Flushing ->
             1 <= count isFlush (trace (run inputs (ngOnInit store editor)))).
  { intros store editor inputs F.
    apply close_issued_after_flush_run; [discriminate|].
    now apply flushing_close_issued. }
  cbv zeta. rewrite (step_BeforeUnload w Ho).
  destruct (isAnyDirty (this w)) eqn:Hd.
  - rewrite since_refl by reflexivity.
    repeat split; try reflexivity; try exact Reached.
    intros v i C. now rewrite closed_absorbing.
  - erewrite since_app by reflexivity.
    destruct St as [F|[_ D]]; [|discriminate D].
    repeat split; try reflexivity; try exact F; try exact Reached.
    intros v i C. now rewrite closed_absorbing.
Qed.

End Properties.

(** ** The component at work on the stand-ins *)

(** The close sequence of C1 on a title edit: the user closes the window and
    half a second passes. *)
Lemma close_sequence_when_dirty_witness :
  windowOpen (Scenario.edited "New") = true
  /\ isAnyDirty (this (Scenario.edited "New")) = true
  /\ since (Scenario.edited "New")
       (run [BeforeUnload; Tick 500; Elapsed CloseChannel] (Scenario.edited "New")) =
       [SetNoteIsOpen "n1" false; UpdateNote "n1" "New" "" "{}"; WindowClose]
  /\ interceptorState
       (run [BeforeUnload; Tick 500; Elapsed CloseChannel] (Scenario.edited "New"))
     = Flushing.
Proof.
  split; [reflexivity|]. split; [reflexivity|].
  pose proof (proj2 (close_sequence_when_dirty (Scenario.edited "New") 500
                       eq_refl eq_refl)) as P.
  split; apply P.
Defined.

(** C1, as stated, fails: in the close sequence the store is told that the
    note is no longer open before the flush-all runs, not after. *)
Lemma close_sequence_notifies_before_flush :
  since Scenario.intercepted Scenario.flushing =
    [SetNoteIsOpen "n1" false; UpdateNote "n1" "New" "" "{}"; WindowClose]
  /\ precedes isFlush isNoLongerOpen (since Scenario.intercepted Scenario.flushing)
     = false.
Proof. vm_compute. split; reflexivity. Qed.

(** C2, as stated, fails: the rename of [Old] to [New] succeeds, no further
    edit is made, and the title is still flagged as changed. *)
Lemma title_still_dirty_after_successful_rename :
  originalNoteTitle
    (this (step (Elapsed TitleChannel) (Scenario.quiet (Scenario.edited "New")))) = "New"
  /\ isTitleChanged
       (this (step (Elapsed TitleChannel) (Scenario.quiet (Scenario.edited "New")))) = true
  /\ isAnyDirty
       (this (step (Elapsed TitleChannel) (Scenario.quiet (Scenario.edited "New"))))
     <> false.
Proof. vm_compute. repeat apply conj; try reflexivity; discriminate. Qed.

(** The title save of C3 on a title of three blanks. *)
Lemma blank_title_reverts_after_store_call_witness :
  RenameNoteResult.operation (renameAnswer (Scenario.edited "   ") "   ") = Blank
  /\ exists w', saveNoteTitleAsync "   " (Scenario.edited "   ") = Returned tt w'
       /\ noteTitle (this w') = "Old"
       /\ originalNoteTitle (this w') = "Old"
       /\ since (Scenario.edited "   ") w' =
            [RenameNote "n1" "Old" "   "; NoteTitleCannotBeEmpty]
       /\ count isSaveCall (since (Scenario.edited "   ") w') = 1.
Proof.
  split; [reflexivity|].
  exact (blank_title_reverts_after_store_call (Scenario.edited "   ") "   " eq_refl).
Defined.

(** C3, as stated, fails: a title of blanks is empty once trimmed, and the
    title save calls the store's rename operation with it all the same. *)
Lemma blank_title_reaches_the_store :
  Fake.trim "   " = ""
  /\ since (Scenario.edited "   ")
       (step (Elapsed TitleChannel) (Scenario.quiet (Scenario.edited "   "))) =
       [RenameNote "n1" "Old" "   "; NoteTitleCannotBeEmpty]
  /\ count isSaveCall
       (since (Scenario.edited "   ")
          (step (Elapsed TitleChannel) (Scenario.quiet (Scenario.edited "   ")))) <> 0.
Proof. vm_compute. repeat apply conj; try reflexivity; discriminate. Qed.

(** The close signal of C4 that answers the close of the close sequence. *)
Lemma close_signal_while_closing_witness :
  (interceptorState Scenario.flushed = Flushing
   \/ (interceptorState Scenario.flushed = InterceptedDirty
       /\ isAnyDirty (this Scenario.flushed) = true))
  /\ interceptorState Scenario.flushed = Flushing
  /\ interceptorState (step BeforeUnload Scenario.flushed) = Closed
  /\ subjects (step BeforeUnload Scenario.flushed) = subjects Scenario.flushed
  /\ since Scenario.flushed (step BeforeUnload Scenario.flushed) =
       [SetNoteIsOpen (noteId (this Scenario.flushed)) false].
Proof.
  split; [left; reflexivity|].
  exact (proj1 (close_signal_while_closing Scenario.flushed (or_introl eq_refl))).
Defined.

(** C4, as stated, fails: a close signal received in [Flushing] is not a
    no-op.  The close sequence has flushed and called [window.close()]; the
    signal that comes back finds both flags clear, tells the store once more
    that the note is no longer open, and the window closes. *)
Lemma close_signal_in_flushing_closes_the_window :
  interceptorState Scenario.flushed = Flushing
  /\ since (Scenario.edited "New") Scenario.flushed =
       [SetNoteIsOpen "n1" false; UpdateNote "n1" "New" "" "{}"; WindowClose]
  /\ step BeforeUnload Scenario.flushed <> Scenario.flushed
  /\ since Scenario.flushed (step BeforeUnload Scenario.flushed) =
       [SetNoteIsOpen "n1" false]
  /\ windowOpen (step BeforeUnload Scenario.flushed) = false.
Proof. vm_compute. repeat apply conj; try reflexivity; discriminate. Qed.

(** The title timer of C5, firing right after the close sequence. *)
Lemma timers_still_save_while_flushing_witness :
  interceptorState Scenario.flushing = Flushing
  /\ ripe (now Scenario.flushing) (noteTitleChanged (subjects Scenario.flushing)) =
       Some "New"
  /\ exists rest,
       since Scenario.flushing (step (Elapsed TitleChannel) Scenario.flushing) =
         RenameNote "n1" "Old" "New" :: rest
       /\ count isSaveCall rest = 0
       /\ isAnyDirty (this (step (Elapsed TitleChannel) Scenario.flushing)) =
          isAnyDirty (this Scenario.flushing).
Proof.
  split; [reflexivity|]. split; [reflexivity|].
  exact (proj1 (timers_still_save_while_flushing Scenario.flushing eq_refl)
           "New" eq_refl).
Defined.

(** C5, as stated, fails: the interceptor is in [Flushing], both flags are
    clear, and the title timer that fires renames the note in the store. *)
Lemma title_timer_saves_while_flushing :
  interceptorState Scenario.flushing = Flushing
  /\ isAnyDirty (this Scenario.flushing) = false
  /\ since Scenario.flushing (step (Elapsed TitleChannel) Scenario.flushing) =
       [RenameNote "n1" "Old" "New"]
  /\ count isSaveCall
       (since Scenario.flushing (step (Elapsed TitleChannel) Scenario.flushing)) <> 0.
Proof. vm_compute. repeat apply conj; try reflexivity; discriminate. Qed.

(** C6, as stated, fails: the store answers [Error] to the flush-all of the
    close sequence and no error is surfaced. *)
Lemma failed_flush_surfaces_nothing :
  flushAnswer (step BeforeUnload (Scenario.edited_on_failing_store Error)) = Error
  /\ since (Scenario.edited_on_failing_store Error)
       (run [BeforeUnload; Tick 500; Elapsed CloseChannel]
          (Scenario.edited_on_failing_store Error)) =
       [SetNoteIsOpen "n1" false; UpdateNote "n1" "New" "" "{}"; WindowClose]
  /\ count isErrorSurface
       (since (Scenario.edited_on_failing_store Error)
          (run [BeforeUnload; Tick 500; Elapsed CloseChannel]
             (Scenario.edited_on_failing_store Error))) <> 1.
Proof. vm_compute. repeat apply conj; try reflexivity; discriminate. Qed.

(** C7.  Stored content that cannot be deserialized should end in a surfaced
    error and an editor at its placeholder, with no exception leaving the
    load path.  The component does otherwise: the store hands out content cut
    short by a torn write, [JSON.parse] throws, and the [SyntaxError] leaves
    [getNoteContentAsync] uncaught with no error surfaced.  The editor does
    stay at its placeholder. *)
Theorem unparsable_content_escapes_the_load :
  JSON.parse Scenario.torn = None
  /\ (exists w', getNoteContentAsync Scenario.routed =
                  Thrown (SyntaxError Scenario.torn) w'
                /\ count isErrorSurface (trace w') = 0
                /\ quill w' = Fake.placeholder)
  /\ trace (step (QueryParams "n1") Scenario.before_load) =
       [GetNote "n1"; SetNoteIsOpen "n1" true; GetNoteContent "n1";
        Uncaught (SyntaxError Scenario.torn)]
  /\ count isErrorSurface (trace (step (QueryParams "n1") Scenario.before_load)) = 0
  /\ quill (step (QueryParams "n1") Scenario.before_load) = Fake.placeholder.
Proof.
  vm_compute. repeat apply conj; try reflexivity.
  eexists. repeat apply conj; reflexivity.
Qed.

(** The content save of C8 on a store that fails. *)
Lemma content_failure_surfaced_once_witness :
  contentAnswer (Scenario.edited_on_failing_store Error) = Error
  /\ exists w', saveNoteContentAsync (Scenario.edited_on_failing_store Error) = Returned tt w'
       /\ since (Scenario.edited_on_failing_store Error) w' =
            [UpdateNoteContent "n1" "" "{}";
             OpenErrorDialog "ErrorTexts.UpdateNoteContentError"]
       /\ count isErrorSurface (since (Scenario.edited_on_failing_store Error) w') = 1
       /\ quill w' = quill (Scenario.edited_on_failing_store Error)
       /\ this w' = this (Scenario.edited_on_failing_store Error).
Proof.
  split; [reflexivity|].
  exact (content_failure_surfaced_once (Scenario.edited_on_failing_store Error) eq_refl).
Defined.

(** The title save of C9 on a store that answers with an unlisted value. *)
Lemma unlisted_rename_result_ignored_witness :
  RenameNoteResult.operation
    (renameAnswer (Scenario.edited_on_failing_store (Unlisted 7)) "New") = Unlisted 7
  /\ exists w',
       saveNoteTitleAsync "New" (Scenario.edited_on_failing_store (Unlisted 7)) =
         Returned tt w'
       /\ this w' = this (Scenario.edited_on_failing_store (Unlisted 7))
       /\ since (Scenario.edited_on_failing_store (Unlisted 7)) w' =
            [RenameNote "n1" "Old" "New"]
       /\ count isErrorSurface (since (Scenario.edited_on_failing_store (Unlisted 7)) w') = 0.
Proof.
  split; [reflexivity|].
  exact (unlisted_rename_result_ignored
           (Scenario.edited_on_failing_store (Unlisted 7)) "New" 7 eq_refl).
Defined.

(** C9, as stated, fails: the store answers the rename with a value that is
    none of [Success], [Blank] and [Error]; the title box keeps [New] instead
    of going back to [Old], and no error is surfaced. *)
Lemma unlisted_rename_result_not_treated_as_failure :
  RenameNoteResult.operation
    (renameAnswer (Scenario.edited_on_failing_store (Unlisted 7)) "New") = Unlisted 7
  /\ originalNoteTitle
       (this (step (Elapsed TitleChannel)
                (Scenario.quiet (Scenario.edited_on_failing_store (Unlisted 7)))))
     = "Old"
  /\ noteTitle
       (this (step (Elapsed TitleChannel)
                (Scenario.quiet (Scenario.edited_on_failing_store (Unlisted 7)))))
     = "New"
  /\ count isErrorSurface
       (since (Scenario.edited_on_failing_store (Unlisted 7))
          (step (Elapsed TitleChannel)
             (Scenario.quiet (Scenario.edited_on_failing_store (Unlisted 7)))))
     = 0.
Proof. vm_compute. repeat split; reflexivity. Qed.


(** ** The further properties at work on the stand-ins *)

(** X1 on the open note, nothing changed. *)
Lemma clean_close_goes_straight_through_witness :
  windowOpen Fake.opened = true
  /\ isAnyDirty (this Fake.opened) = false
  /\ interceptorState (step BeforeUnload Fake.opened) = Closed
  /\ since Fake.opened (step BeforeUnload Fake.opened) =
       [SetNoteIsOpen (noteId (this Fake.opened)) false].
Proof.
  split; [reflexivity|]. split; [reflexivity|].
  pose proof (clean_close_goes_straight_through Fake.opened eq_refl eq_refl) as P.
  split; apply P.
Defined.

(** X2 on the close signal that closes the open note. *)
Lemma window_closes_only_on_clean_close_signal_witness :
  windowOpen Fake.opened = true
  /\ windowOpen (step BeforeUnload Fake.opened) = false
  /\ isAnyDirty (this Fake.opened) = false.
Proof.
  split; [reflexivity|]. split; [reflexivity|].
  exact (proj1 (proj2 (window_closes_only_on_clean_close_signal
                         Fake.opened BeforeUnload eq_refl eq_refl))).
Defined.

(** X3 on a title edit of the open note. *)
Lemma dirty_flags_move_only_by_edit_and_close_signal_witness :
  windowOpen Fake.opened = true
  /\ isTitleChanged (this (step (NotetitleChange "New") Fake.opened)) = true
  /\ isContentChanged (this (step (NotetitleChange "New") Fake.opened)) =
     isContentChanged (this Fake.opened).
Proof.
  split; [reflexivity|].
  exact (dirty_flags_move_only_by_edit_and_close_signal
           Fake.opened (NotetitleChange "New") eq_refl).
Defined.

(** X6 on a title typed in three strokes, a fraction of a second apart. *)
Lemma title_burst_saves_once_with_the_last_title_witness :
  windowOpen Fake.opened = true
  /\ Forall (fun e => (fst e < saveTimeoutMilliseconds)%N) [(300%N, "Ne"); (200%N, "New")]
  /\ (saveTimeoutMilliseconds <= 5000)%N
  /\ since Fake.opened
       (run (NotetitleChange "N" :: titleBurst [(300%N, "Ne"); (200%N, "New")])
          Fake.opened) = [].
Proof.
  split; [reflexivity|].
  assert (B : Forall (fun e : N * string => (fst e < saveTimeoutMilliseconds)%N)
                [(300%N, "Ne"); (200%N, "New")])
    by (repeat constructor).
  split; [exact B|].
  assert (L : (saveTimeoutMilliseconds <= 5000)%N) by (vm_compute; discriminate).
  split; [exact L|].
  exact (proj1 (title_burst_saves_once_with_the_last_title
                  Fake.opened "N" [(300%N, "Ne"); (200%N, "New")] 5000
                  eq_refl B L)).
Defined.

(** X7 on a text typed in two strokes. *)
Lemma text_burst_saves_once_with_the_last_content_witness :
  windowOpen Fake.opened = true
  /\ Forall (fun e => (fst e < saveTimeoutMilliseconds)%N)
       [(400%N, Scenario.typedInto "hi")]
  /\ (saveTimeoutMilliseconds <= 6000)%N
  /\ since Fake.opened
       (run (TextChange (Scenario.typedInto "h")
             :: textBurst [(400%N, Scenario.typedInto "hi")])
          Fake.opened) = [].
Proof.
  split; [reflexivity|].
  assert (B : Forall (fun e : N * Fake.Editor => (fst e < saveTimeoutMilliseconds)%N)
                [(400%N, Scenario.typedInto "hi")])
    by (repeat constructor).
  split; [exact B|].
  assert (L : (saveTimeoutMilliseconds <= 6000)%N) by (vm_compute; discriminate).
  split; [exact L|].
  exact (proj1 (text_burst_saves_once_with_the_last_content
                  Fake.opened (Scenario.typedInto "h")
                  [(400%N, Scenario.typedInto "hi")] 6000 eq_refl B L)).
Defined.

(** X8 on a store that fails. *)
Lemma load_failure_surfaced_once_witness :
  GetNoteContentResult.operation (loadAnswer (Fake.failing Error)) = Error
  /\ exists w', getNoteContentAsync (Fake.failing Error) = Returned tt w'
       /\ since (Fake.failing Error) w' =
            [GetNoteContent (noteId (this (Fake.failing Error)));
             OpenErrorDialog (translate "ErrorTexts.GetNoteContentError" [])]
       /\ quill w' = quill (Fake.failing Error)
       /\ this w' = this (Fake.failing Error)
       /\ subjects w' = subjects (Fake.failing Error).
Proof.
  split; [reflexivity|].
  exact (load_failure_surfaced_once (Fake.failing Error) eq_refl).
Defined.

(** X9 on a note stored with the empty string for content. *)
Lemma load_without_content_is_quiet_witness :
  GetNoteContentResult.operation (loadAnswer (Scenario.routedWith "")) <> Error
  /\ exists w', getNoteContentAsync (Scenario.routedWith "") = Returned tt w'
       /\ since (Scenario.routedWith "") w' =
            [GetNoteContent (noteId (this (Scenario.routedWith "")))]
       /\ quill w' = quill (Scenario.routedWith "")
       /\ this w' = this (Scenario.routedWith "")
       /\ subjects w' = subjects (Scenario.routedWith "").
Proof.
  assert (N : GetNoteContentResult.operation (loadAnswer (Scenario.routedWith ""))
              <> Error) by (vm_compute; discriminate).
  split; [exact N|].
  exact (load_without_content_is_quiet (Scenario.routedWith "") N
           (or_intror eq_refl)).
Defined.

(** X10 on a note stored with one insert. *)
Lemma load_fills_the_editor_silently_witness :
  JSON.parse (String "{" Scenario.savedTail) = Some Scenario.savedDelta
  /\ exists w',
       getNoteContentAsync (Scenario.routedWith (String "{" Scenario.savedTail)) =
         Returned tt w'
       /\ quill w' =
          setContents (quill (Scenario.routedWith (String "{" Scenario.savedTail)))
            Scenario.savedDelta
       /\ since (Scenario.routedWith (String "{" Scenario.savedTail)) w' =
            [GetNoteContent
               (noteId (this (Scenario.routedWith (String "{" Scenario.savedTail))))]
       /\ this w' = this (Scenario.routedWith (String "{" Scenario.savedTail))
       /\ subjects w' = subjects (Scenario.routedWith (String "{" Scenario.savedTail)).
Proof.
  assert (P : JSON.parse (String "{" Scenario.savedTail) = Some Scenario.savedDelta)
    by (vm_compute; reflexivity).
  split; [exact P|].
  assert (N : GetNoteContentResult.operation
                (loadAnswer (Scenario.routedWith (String "{" Scenario.savedTail)))
              <> Error) by (vm_compute; discriminate).
  exact (load_fills_the_editor_silently
           (Scenario.routedWith (String "{" Scenario.savedTail))
           "{" Scenario.savedTail Scenario.savedDelta N eq_refl P).
Defined.

(** X11 on a note whose stored content stops short. *)
Lemma load_throws_only_on_unparsable_content_witness :
  getNoteContentAsync (Scenario.routedWith (String "{" (JSON.quote "ops"))) =
    Thrown (SyntaxError (String "{" (JSON.quote "ops")))
      (with_trace [GetNoteContent "n1"]
         (Scenario.routedWith (String "{" (JSON.quote "ops"))))
  /\ GetNoteContentResult.operation
       (loadAnswer (Scenario.routedWith (String "{" (JSON.quote "ops")))) <> Error.
Proof.
  assert (T : getNoteContentAsync (Scenario.routedWith (String "{" (JSON.quote "ops"))) =
              Thrown (SyntaxError (String "{" (JSON.quote "ops")))
                (with_trace [GetNoteContent "n1"]
                   (Scenario.routedWith (String "{" (JSON.quote "ops")))))
    by (vm_compute; reflexivity).
  split; [exact T|].
  exact (proj1 (load_throws_only_on_unparsable_content _ _ _ T)).
Defined.

(** X12 on the route to note [n1]. *)
Lemma route_opens_the_note_witness :
  windowOpen (ngOnInit (Fake.stored "{}") Fake.placeholder) = true
  /\ exists rest,
       since (ngOnInit (Fake.stored "{}") Fake.placeholder) Fake.opened =
         GetNote "n1"
         :: SetNoteIsOpen (Note.id (getNote (Fake.stored "{}") "n1")) true
         :: GetNoteContent (Note.id (getNote (Fake.stored "{}") "n1"))
         :: rest
       /\ count isSaveCall rest = 0
       /\ noteId (this Fake.opened) = Note.id (getNote (Fake.stored "{}") "n1")
       /\ originalNoteTitle (this Fake.opened) =
          Note.title (getNote (Fake.stored "{}") "n1")
       /\ noteTitle (this Fake.opened) = Note.title (getNote (Fake.stored "{}") "n1")
       /\ windowOpen Fake.opened = true.
Proof.
  split; [reflexivity|].
  exact (route_opens_the_note (ngOnInit (Fake.stored "{}") Fake.placeholder) "n1"
           eq_refl).
Defined.

(** X13 on a title typed with blanks around it, which the store trims. *)
Lemma title_box_shows_the_last_known_good_title_witness :
  RenameNoteResult.operation (renameAnswer (Scenario.edited "  New ") "  New ")
    = Success
  /\ exists w', saveNoteTitleAsync "  New " (Scenario.edited "  New ") = Returned tt w'
       /\ noteTitle (this w') = originalNoteTitle (this w')
       /\ (RenameNoteResult.operation (renameAnswer (Scenario.edited "  New ") "  New ")
             = Success ->
           noteTitle (this w') =
             RenameNoteResult.newNoteTitle
               (renameAnswer (Scenario.edited "  New ") "  New ")).
Proof.
  assert (E : RenameNoteResult.operation
                (renameAnswer (Scenario.edited "  New ") "  New ") = Success)
    by (vm_compute; reflexivity).
  split; [exact E|].
  apply (title_box_shows_the_last_known_good_title (Scenario.edited "  New ") "  New ").
  intros code. rewrite E. discriminate.
Defined.

(** X15 on a title edit, the close half a second after the signal. *)
Lemma dirty_close_runs_to_the_end_witness :
  windowOpen (Scenario.edited "New") = true
  /\ isAnyDirty (this (Scenario.edited "New")) = true
  /\ (windowCloseTimeoutMilliseconds <= 500)%N
  /\ interceptorState
       (run [BeforeUnload; Tick 500; Elapsed CloseChannel; BeforeUnload]
          (Scenario.edited "New")) = Closed.
Proof.
  split; [reflexivity|]. split; [reflexivity|].
  assert (L : (windowCloseTimeoutMilliseconds <= 500)%N) by (vm_compute; discriminate).
  split; [exact L|].
  exact (proj1 (dirty_close_runs_to_the_end (Scenario.edited "New") 500
                  eq_refl eq_refl L)).
Defined.

(** X16 on a title edit, the close signal, and a stroke in the editor before
    the grace delay is over. *)
Lemma edit_during_the_grace_delay_holds_the_close_back_again_witness :
  windowOpen (Scenario.edited "New") = true
  /\ isAnyDirty (this (Scenario.edited "New")) = true
  /\ (windowCloseTimeoutMilliseconds <= 500)%N
  /\ since (Scenario.edited "New")
       (run [BeforeUnload; TextChange (Scenario.typedInto "hi"); Tick 500;
             Elapsed CloseChannel] (Scenario.edited "New")) =
       [SetNoteIsOpen (noteId (this (Scenario.edited "New"))) false;
        UpdateNote (noteId (this (Scenario.edited "New")))
          (noteTitle (this (Scenario.edited "New")))
          (getText (Scenario.typedInto "hi"))
          (JSON.stringify (getContents (Scenario.typedInto "hi")));
        WindowClose].
Proof.
  split; [reflexivity|]. split; [reflexivity|].
  assert (L : (windowCloseTimeoutMilliseconds <= 500)%N) by (vm_compute; discriminate).
  split; [exact L|].
  exact (proj1 (edit_during_the_grace_delay_holds_the_close_back_again
                  (Scenario.edited "New") (Scenario.typedInto "hi") 500
                  eq_refl eq_refl L)).
Defined.
